(** * Twilio and WooCommerce source connectors: pagination, slicing, cursor state

    A shallow embedding of
      source-twilio/source_twilio/source.py
      source-woocommerce/source_woocommerce/source.py
    and of the few library functions these two files call
    (urllib.parse, requests.Response.links, the HttpStream defaults). *)

From Stdlib Require Import ZArith String Ascii List Sorting.Sorted.
From Stdlib Require Import Floats.SpecFloat.
From stdpp Require Import base gmap strings list fin_maps.

Set Warnings "-register-all".
Local Open Scope string_scope.

(* ===================================================================== *)
(** ** Python values, exceptions and generators *)
(* ===================================================================== *)

Module Py.

(** The exceptions that the modelled code can raise. *)
Inductive exn : Type :=
| AttributeError
| TypeError
| KeyError
| ValueError
| NameError
| JSONDecodeError
| NotImplementedError.

(** A call either returns a value or raises. *)
Inductive result (A : Type) : Type :=
| Ok (a : A)
| Raise (e : exn).
Arguments Ok {A} a.
Arguments Raise {A} e.

(** Sequencing, through stdpp's [x ← r; k] notation. *)
#[global] Instance result_bind : MBind result := fun A B k r =>
  match r with
  | Ok a => k a
  | Raise e => Raise e
  end.

(** What [json.loads] produces, which is also what a record of a stream
    is: JSON numbers are Python ints or binary64 floats, JSON objects are
    dicts with string keys.  A [str] is kept as the bytes of its UTF-8
    encoding. *)
Inductive pyval : Type :=
| PNone
| PBool (b : bool)
| PInt (n : Z)
| PFloat (f : spec_float)
| PStr (s : string)
| PList (l : list pyval)
| PDict (d : gmap string pyval).

(** Numbers, for Python's mixed bool/int/float comparisons: a finite
    number is [m * 2^e]. *)
Inductive num : Type :=
| NNan
| NInf (neg : bool)
| NFin (m e : Z).

Definition as_num (v : pyval) : option num :=
  match v with
  | PBool b => Some (NFin (Z.b2z b) 0)
  | PInt n => Some (NFin n 0)
  | PFloat (S754_zero _) => Some (NFin 0 0)
  | PFloat (S754_infinity s) => Some (NInf s)
  | PFloat S754_nan => Some NNan
  | PFloat (S754_finite s m e) => Some (NFin (if s then Z.neg m else Z.pos m) e)
  | _ => None
  end.

(** [None] when a NaN makes every comparison false. *)
Definition num_compare (a b : num) : option comparison :=
  match a, b with
  | NNan, _ | _, NNan => None
  | NInf s, NInf t =>
      Some (match s, t with
            | true, false => Lt
            | false, true => Gt
            | _, _ => Eq
            end)
  | NInf s, NFin _ _ => Some (if s then Lt else Gt)
  | NFin _ _, NInf t => Some (if t then Gt else Lt)
  | NFin m1 e1, NFin m2 e2 =>
      let e := Z.min e1 e2 in
      Some (Z.compare (m1 * 2 ^ (e1 - e)) (m2 * 2 ^ (e2 - e)))
  end.

(** [bool(v)]. *)
Definition truthy (v : pyval) : bool :=
  match v with
  | PNone => false
  | PBool b => b
  | PInt n => negb (Z.eqb n 0)
  | PFloat (S754_zero _) => false
  | PFloat _ => true
  | PStr s => negb (String.eqb s "")
  | PList l => match l with [] => false | _ => true end
  | PDict d => negb (Nat.eqb (size d) 0)
  end.

(** [a == b]. *)
Fixpoint py_eq (a b : pyval) {struct a} : bool :=
  match a, b with
  | PNone, PNone => true
  | PStr s, PStr t => String.eqb s t
  | PList l, PList m =>
      (fix go (l m : list pyval) : bool :=
         match l, m with
         | [], [] => true
         | x :: l', y :: m' => py_eq x y && go l' m'
         | _, _ => false
         end) l m
  | PDict d, PDict e =>
      Nat.eqb (size d) (size e) &&
      map_fold (fun k x acc =>
                  acc && match e !! k with
                         | Some y => py_eq x y
                         | None => false
                         end) true d
  | (PBool _ | PInt _ | PFloat _), (PBool _ | PInt _ | PFloat _) =>
      match as_num a, as_num b with
      | Some x, Some y =>
          match num_compare x y with Some Eq => true | _ => false end
      | _, _ => false
      end
  | _, _ => false
  end.

(** [a > b]: defined between two numbers, two strings (by code point,
    which is the byte order of the UTF-8 encodings) and two lists;
    anything else is a TypeError. *)
Fixpoint py_gt (a b : pyval) {struct a} : result bool :=
  match a, b with
  | PStr s, PStr t =>
      Ok (match String.compare s t with Gt => true | _ => false end)
  | PList l, PList m =>
      (fix go (l m : list pyval) : result bool :=
         match l, m with
         | [], _ => Ok false
         | _ :: _, [] => Ok true
         | x :: l', y :: m' => if py_eq x y then go l' m' else py_gt x y
         end) l m
  | (PBool _ | PInt _ | PFloat _), (PBool _ | PInt _ | PFloat _) =>
      match as_num a, as_num b with
      | Some x, Some y =>
          Ok (match num_compare x y with Some Gt => true | _ => false end)
      | _, _ => Raise TypeError
      end
  | _, _ => Raise TypeError
  end.

(** The builtin [max(a, b)]: keeps [a] unless [b > a]. *)
Definition max (a b : pyval) : result pyval :=
  greater ← py_gt b a;
  Ok (if greater : bool then b else a).

(** [v.get(k, dflt)]: only a dict has the method. *)
Definition get (v : pyval) (k : string) (dflt : pyval) : result pyval :=
  match v with
  | PDict d => Ok (default dflt (d !! k))
  | _ => Raise AttributeError
  end.

(** [v[k]] for a string key. *)
Definition getitem (v : pyval) (k : string) : result pyval :=
  match v with
  | PDict d =>
      match d !! k with
      | Some x => Ok x
      | None => Raise KeyError
      end
  | _ => Raise TypeError
  end.

(** [dict(pairs)]: a later pair replaces an earlier one with its key. *)
Definition dict {V} (pairs : list (string * V)) : gmap string V :=
  foldl (fun m kv => <[kv.1 := kv.2]> m) ∅ pairs.

(** What a generator does when it is run to its end: the values it
    yields, in order, and the exception that stopped it, if any. *)
Definition emission (A : Type) : Type := list A * option exn.

Definition yield {A} (x : A) : emission A := ([x], None).
Definition skip {A} : emission A := ([], None).
Definition throw {A} (e : exn) : emission A := ([], Some e).

(** The loop body yields [here]; unless it raised, the loop goes on and
    yields [rest]. *)
Definition and_then {B} (here rest : emission B) : emission B :=
  match here.2 with
  | None => ((here.1 ++ rest.1)%list, rest.2)
  | Some e => (here.1, Some e)
  end.

(** [for x in src: body(x)], inside a generator. *)
Definition for_each {A B} (src : emission A) (body : A → emission B)
  : emission B :=
  foldr (fun x rest => and_then (body x) rest) ([], src.2) src.1.

(** The characters of a [str]: in UTF-8 a byte [10xxxxxx] continues
    the character that the bytes before it began. *)
Definition is_continuation (c : ascii) : bool :=
  Nat.leb 128 (nat_of_ascii c) && Nat.leb (nat_of_ascii c) 191.

Fixpoint chars (s : string) : list string :=
  match s with
  | EmptyString => []
  | String c s' =>
      match s' with
      | String d _ =>
          if is_continuation d then
            match chars s' with
            | piece :: pieces => String c piece :: pieces
            | [] => [String c EmptyString]
            end
          else String c EmptyString :: chars s'
      | EmptyString => [String c EmptyString]
      end
  end.

(** What iterating over [v] gives: the items of a list, the characters
    of a string, the keys of a dict; nothing else here is iterable.
    [keys_in_order] is the order in which a dict yields its keys, its
    insertion order, which the mapping does not record. *)
Definition iter (keys_in_order : gmap string pyval → list string)
    (v : pyval) : result (list pyval) :=
  match v with
  | PList l => Ok l
  | PStr s => Ok (PStr <$> chars s)
  | PDict d => Ok (PStr <$> keys_in_order d)
  | _ => Raise TypeError
  end.

End Py.

(* ===================================================================== *)
(** ** The [str] methods used by the libraries below *)
(* ===================================================================== *)

Module Str.

(** [c in chars]. *)
Fixpoint mem (c : ascii) (chars : string) : bool :=
  match chars with
  | EmptyString => false
  | String d chars' => Ascii.eqb c d || mem c chars'
  end.

Fixpoint all (p : ascii → bool) (s : string) : bool :=
  match s with
  | EmptyString => true
  | String c s' => p c && all p s'
  end.

Definition is_empty (s : string) : bool :=
  match s with
  | EmptyString => true
  | String _ _ => false
  end.

(** [s.split(c, 1)] when [c] occurs in [s]: the text before the first
    [c] and the text after it. *)
Fixpoint split_once (c : ascii) (s : string) : option (string * string) :=
  match s with
  | EmptyString => None
  | String d s' =>
      if Ascii.eqb c d then Some (EmptyString, s')
      else match split_once c s' with
           | Some (before, after) => Some (String d before, after)
           | None => None
           end
  end.

(** [s.split(c)]: never empty, the empty string splits to one empty
    piece. *)
Fixpoint split (c : ascii) (s : string) : list string :=
  match s with
  | EmptyString => [EmptyString]
  | String d s' =>
      match split c s' with
      | piece :: pieces =>
          if Ascii.eqb c d then EmptyString :: piece :: pieces
          else String d piece :: pieces
      | [] => []
      end
  end.

Fixpoint lstrip (chars s : string) : string :=
  match s with
  | EmptyString => EmptyString
  | String c s' => if mem c chars then lstrip chars s' else s
  end.

(** [s.strip(chars)]. *)
Definition strip (chars s : string) : string :=
  String.rev (lstrip chars (String.rev (lstrip chars s))).

(** [s.replace(a, b)] for single characters. *)
Fixpoint replace (a b : ascii) (s : string) : string :=
  match s with
  | EmptyString => EmptyString
  | String c s' => String (if Ascii.eqb c a then b else c) (replace a b s')
  end.

Definition between (lo hi c : ascii) : bool :=
  Nat.leb (nat_of_ascii lo) (nat_of_ascii c) &&
  Nat.leb (nat_of_ascii c) (nat_of_ascii hi).

Definition lower_char (c : ascii) : ascii :=
  if between "A" "Z" c then ascii_of_nat (nat_of_ascii c + 32) else c.

(** [s.lower()], on ASCII letters. *)
Fixpoint lower (s : string) : string :=
  match s with
  | EmptyString => EmptyString
  | String c s' => String (lower_char c) (lower s')
  end.

(** The double quote character. *)
Definition dquote : ascii := "034"%char.

(** [s.title()] on ASCII letters: a letter that follows a letter is
    lowered, any other letter is raised. *)
Definition upper_char (c : ascii) : ascii :=
  if between "a" "z" c then ascii_of_nat (nat_of_ascii c - 32) else c.

Definition is_letter (c : ascii) : bool :=
  between "a" "z" c || between "A" "Z" c.

Fixpoint title_from (previous_is_cased : bool) (s : string) : string :=
  match s with
  | EmptyString => EmptyString
  | String c s' =>
      String (if is_letter c
              then if previous_is_cased then lower_char c else upper_char c
              else c)
             (title_from (is_letter c) s')
  end.

Definition title (s : string) : string := title_from false s.

End Str.

(* ===================================================================== *)
(** ** urllib.parse *)
(* ===================================================================== *)

(** [urlsplit], [parse_qsl] and [unquote] as in CPython 3.8.8 to 3.8.10
    and 3.9.2 to 3.9.4, the interpreters the connectors were written
    for.  Two things are left out: the NFKC check of a non-ASCII host
    (which can only add a ValueError), and the replacement of
    percent-escapes that do not decode to UTF-8 by U+FFFD (the bytes
    are kept as they are). *)
Module urllib.

Import Py.

Record SplitResult : Type := {
  scheme : string;
  netloc : string;
  path : string;
  query : string;
  fragment : string
}.

(** [scheme_chars]: letters, digits and [+-.]. *)
Definition scheme_char (c : ascii) : bool :=
  Str.between "a" "z" c || Str.between "A" "Z" c ||
  Str.between "0" "9" c || Str.mem c "+-.".

(** [_splitnetloc(url, 2)], applied to the text after the [//]: the host
    part runs up to the first of [/], [?], [#]. *)
Fixpoint splitnetloc (s : string) : string * string :=
  match s with
  | EmptyString => (EmptyString, EmptyString)
  | String c s' =>
      if Str.mem c "/?#" then (EmptyString, s)
      else let '(host, rest) := splitnetloc s' in (String c host, rest)
  end.

Definition strip_slashes (url : string) : option string :=
  match url with
  | String "/" (String "/" rest) => Some rest
  | _ => None
  end.

Definition urlsplit (url : string) : result SplitResult :=
  let '(scheme, url) :=
    match Str.split_once ":" url with
    | Some (before, after) =>
        if negb (Str.is_empty before) && Str.all scheme_char before
        then (Str.lower before, after)
        else (EmptyString, url)
    | None => (EmptyString, url)
    end in
  let '(netloc, url) :=
    match strip_slashes url with
    | Some rest => splitnetloc rest
    | None => (EmptyString, url)
    end in
  if (Str.mem "[" netloc && negb (Str.mem "]" netloc)) ||
     (Str.mem "]" netloc && negb (Str.mem "[" netloc))
  then Raise ValueError
  else
    let '(url, fragment) :=
      match Str.split_once "#" url with
      | Some (before, after) => (before, after)
      | None => (url, EmptyString)
      end in
    let '(url, query) :=
      match Str.split_once "?" url with
      | Some (before, after) => (before, after)
      | None => (url, EmptyString)
      end in
    Ok {| scheme := scheme; netloc := netloc; path := url;
          query := query; fragment := fragment |}.

(** [urlparse(v).query] for any Python value [v]: a falsy value is
    parsed as the empty URL, a truthy value that is not a [str] has no
    [decode] method.  ([urlparse] only cuts the [;params] off the path
    that [urlsplit] returns.) *)
Definition urlparse_query (v : pyval) : result string :=
  match v with
  | PStr s => r ← urlsplit s; Ok (query r)
  | _ => if truthy v then Raise AttributeError else Ok EmptyString
  end.

Definition hex_digit (c : ascii) : option nat :=
  if Str.between "0" "9" c then Some (nat_of_ascii c - 48)
  else if Str.between "a" "f" c then Some (nat_of_ascii c - 87)
  else if Str.between "A" "F" c then Some (nat_of_ascii c - 55)
  else None.

(** [unquote]: [%XX] with two hex digits is the byte [XX], any other
    [%] stays. *)
Fixpoint unquote (s : string) : string :=
  match s with
  | EmptyString => EmptyString
  | String c s' =>
      match s' with
      | String a (String b rest) =>
          match Ascii.eqb c "%", hex_digit a, hex_digit b with
          | true, Some h, Some l =>
              String (ascii_of_nat (16 * h + l)) (unquote rest)
          | _, _, _ => String c (unquote s')
          end
      | _ => String c (unquote s')
      end
  end.

(** One [name=value] field of a query string, with the defaults
    [keep_blank_values=False], [strict_parsing=False]. *)
Definition parse_field (name_value : string) : list (string * string) :=
  match Str.split_once "=" name_value with
  | Some (name, value) =>
      if Str.is_empty value then []
      else [(unquote (Str.replace "+" " " name),
             unquote (Str.replace "+" " " value))]
  | None => []
  end.

(** [parse_qsl(qs)], with the default separator [&]. *)
Definition parse_qsl (qs : string) : list (string * string) :=
  flat_map parse_field (Str.split "&" qs).

End urllib.

(* ===================================================================== *)
(** ** requests *)
(* ===================================================================== *)

Module requests.

Import Py.

(** A [requests.Response], as far as the connectors look at it: what
    [response.json()] does, and the [Link] header, if there is one. *)
Record Response : Type := {
  json : result pyval;
  link_header : option string
}.

(** The characters [parse_header_links] strips: space and both quotes. *)
Definition replace_chars : string :=
  String " " (String "'" (String Str.dquote EmptyString)).

Definition url_chars : string :=
  String "<" (String ">" replace_chars).

(** [re.split(', *<', value)].  [cur] is the piece being read, reversed;
    [pending] is a comma and the spaces after it, reversed, while it is
    open whether a [<] follows. *)
Fixpoint split_links (cur : string) (pending : option string) (s : string)
  : list string :=
  match s with
  | EmptyString =>
      [String.rev (match pending with Some p => p ++ cur | None => cur end)]
  | String c s' =>
      match pending with
      | None =>
          if Ascii.eqb c "," then split_links cur (Some ",") s'
          else split_links (String c cur) None s'
      | Some p =>
          if Ascii.eqb c " " then split_links cur (Some (String c p)) s'
          else if Ascii.eqb c "<" then
            String.rev cur :: split_links EmptyString None s'
          else if Ascii.eqb c "," then split_links (p ++ cur) (Some ",") s'
          else split_links (String c (p ++ cur)) None s'
      end
  end.

(** The loop over [params.split(';')]: it stops at the first parameter
    that is not of the form [key=value]. *)
Fixpoint add_params (params : list string) (link : gmap string string)
  : gmap string string :=
  match params with
  | [] => link
  | param :: params' =>
      match Str.split "=" param with
      | [key; value] =>
          add_params params'
            (<[Str.strip replace_chars key := Str.strip replace_chars value]> link)
      | _ => link
      end
  end.

Definition parse_link (val : string) : gmap string string :=
  let '(url, params) :=
    match Str.split_once ";" val with
    | Some (url, params) => (url, params)
    | None => (val, EmptyString)
    end in
  add_params (Str.split ";" params) {["url" := Str.strip url_chars url]}.

(** [requests.utils.parse_header_links]. *)
Definition parse_header_links (value : string) : list (gmap string string) :=
  let value := Str.strip replace_chars value in
  if Str.is_empty value then []
  else parse_link <$> split_links EmptyString None value.

(** [link.get('rel') or link.get('url')]; every parsed link has a
    ['url'] entry. *)
Definition link_key (link : gmap string string) : string :=
  match link !! "rel" with
  | Some rel => if Str.is_empty rel then default EmptyString (link !! "url") else rel
  | None => default EmptyString (link !! "url")
  end.

(** The [links] property of a response. *)
Definition links (r : Response) : gmap string (gmap string string) :=
  match link_header r with
  | Some header =>
      if Str.is_empty header then ∅
      else foldl (fun l link => <[link_key link := link]> l) ∅
                 (parse_header_links header)
  | None => ∅
  end.

End requests.

(* ===================================================================== *)
(** ** source_twilio/source.py *)
(* ===================================================================== *)

Module Twilio.

Import Py.

(** The page token: the query parameters of the next request. *)
Abbreviation token := (gmap string string).

(** *** class TwilioStream *)

Definition page_size : Z := 100.

(** [TwilioStream.next_page_token]; falling off the end of the method
    returns [None]. *)
Definition next_page_token (response : requests.Response)
  : result (option token) :=
  stream_data ← requests.json response;
  next_page_uri ← get stream_data "next_page_uri" PNone;
  if truthy next_page_uri then
    next_url_query ← urllib.urlparse_query next_page_uri;
    let next_page_params := dict (urllib.parse_qsl next_url_query) in
    Ok (Some next_page_params)
  else Ok None.

(** [if next_page_token:] on an optional mapping. *)
Definition token_truthy (next_page_token : option token) : bool :=
  match next_page_token with
  | Some t => negb (Nat.eqb (size t) 0)
  | None => false
  end.

(** [TwilioStream.request_params].  [super_params] is what
    [super().request_params(...)] returned, the parameters of the
    HttpStream base class. *)
Definition request_params (super_params : gmap string pyval)
    (next_page_token : option token) : gmap string pyval :=
  let params := super_params in
  let params := <["PageSize" := PInt page_size]> params in
  if token_truthy next_page_token then
    (PStr <$> default ∅ next_page_token) ∪ params
  else params.

(** *** The stream classes *)

(** A stream class, by the attributes that the slicing code reads.
    [TwilioStream] stands for the classes that inherit HttpStream's
    [stream_slices], [TwilioNestedStream] for those that inherit
    [TwilioNestedStream.stream_slices], and [DependentPhoneNumbersStream]
    for the one class that overrides it. *)
Inductive stream : Type :=
| TwilioStream (name : string)
| TwilioNestedStream (name : string) (parent_stream : stream)
    (data_field subresource_uri_key : string)
    (media_exist_validation : list (string * pyval))
| DependentPhoneNumbersStream (name : string) (parent_stream : stream).

(** A subclass of TwilioNestedStream that sets only [parent_stream]:
    [data_field] is the stream's name, [subresource_uri_key] is
    [data_field], [media_exist_validation] is empty. *)
Definition nested (name : string) (parent_stream : stream) : stream :=
  TwilioNestedStream name parent_stream name name [].

Definition Accounts := TwilioStream "accounts".
Definition Addresses := nested "addresses" Accounts.
Definition DependentPhoneNumbers :=
  DependentPhoneNumbersStream "dependent_phone_numbers" Addresses.
Definition Applications := nested "applications" Accounts.
Definition AvailablePhoneNumberCountries :=
  TwilioNestedStream "available_phone_number_countries" Accounts
    "countries" "available_phone_numbers" [].
Definition AvailablePhoneNumbersLocal :=
  TwilioNestedStream "available_phone_numbers_local"
    AvailablePhoneNumberCountries "available_phone_numbers" "local" [].
Definition AvailablePhoneNumbersMobile :=
  TwilioNestedStream "available_phone_numbers_mobile"
    AvailablePhoneNumberCountries "available_phone_numbers" "mobile" [].
Definition AvailablePhoneNumbersTollFree :=
  TwilioNestedStream "available_phone_numbers_toll_free"
    AvailablePhoneNumberCountries "available_phone_numbers" "toll_free" [].
Definition IncomingPhoneNumbers := nested "incoming_phone_numbers" Accounts.
Definition Keys := nested "keys" Accounts.
Definition Calls := nested "calls" Accounts.
Definition Conferences := nested "conferences" Accounts.
Definition ConferenceParticipants := nested "conference_participants" Conferences.
Definition OutgoingCallerIds := nested "outgoing_caller_ids" Accounts.
Definition Recordings := nested "recordings" Accounts.
Definition Transcriptions := nested "transcriptions" Accounts.
Definition Queues := nested "queues" Accounts.
Definition Messages := nested "messages" Accounts.
Definition MessageMedia :=
  TwilioNestedStream "message_media" Messages "media" "media"
    [("num_media", PStr "0")].
Definition UsageRecords := nested "usage_records" Accounts.
Definition UsageTriggers := nested "usage_triggers" Accounts.
Definition Alerts := TwilioStream "alerts".

(** *** TwilioNestedStream.stream_slices *)

(** The loop over [media_exist_validation.items()], entered with
    [validated].  [x and y] is [x] when [x] is falsy. *)
Fixpoint validate (media_exist_validation : list (string * pyval))
    (item validated : pyval) : result pyval :=
  match media_exist_validation with
  | [] => Ok validated
  | (key, value) :: more =>
      field ← get item key PNone;
      let validated :=
        if truthy field then PBool (negb (py_eq field value)) else field in
      if negb (truthy validated) then Ok validated
      else validate more item validated
  end.

(** The body of the inner loop: what one parent record makes the
    generator do. *)
Definition nested_item (subresource_uri_key : string)
    (media_exist_validation : list (string * pyval)) (item : pyval)
  : emission pyval :=
  match (uris ← get item "subresource_uris" (PDict ∅);
         get uris subresource_uri_key PNone) with
  | Raise e => throw e
  | Ok reference =>
      if truthy reference then
        match validate media_exist_validation item (PBool true) with
        | Raise e => throw e
        | Ok validated =>
            if truthy validated then
              match (uris ← getitem item "subresource_uris";
                     getitem uris subresource_uri_key) with
              | Raise e => throw e
              | Ok uri => yield (PDict {["subresource_uri" := uri]})
              end
            else skip
        end
      else skip
  end.

(** The body of the inner loop of [DependentPhoneNumbers.stream_slices]. *)
Definition dependent_item (item : pyval) : emission pyval :=
  match (sid ← getitem item "sid";
         account_sid ← getitem item "account_sid";
         Ok (PDict (<["sid" := sid]> {["account_sid" := account_sid]}))) with
  | Raise e => throw e
  | Ok slice => yield slice
  end.

Section Engine.

(** What the HttpStream base class contributes: the slices of a stream
    that does not define [stream_slices], and the records that
    [read_records(sync_mode=full_refresh, stream_slice=...)] yields for
    a stream and one of its slices. *)
Variable default_stream_slices : emission pyval.
Variable read_records : stream → pyval → emission pyval.

(** [stream_slices] of a stream class; a dependent stream runs its
    parent's [stream_slices] and reads the parent's records slice by
    slice. *)
Fixpoint stream_slices (s : stream) : emission pyval :=
  match s with
  | TwilioStream _ => default_stream_slices
  | TwilioNestedStream _ parent _ key validation =>
      for_each (stream_slices parent) (fun stream_slice =>
        for_each (read_records parent stream_slice)
                 (nested_item key validation))
  | DependentPhoneNumbersStream _ parent =>
      for_each (stream_slices parent) (fun stream_slice =>
        for_each (read_records parent stream_slice) dependent_item)
  end.

(** Everything a stream emits in a full refresh: its records, slice
    after slice. *)
Definition records (s : stream) : emission pyval :=
  for_each (stream_slices s) (read_records s).

End Engine.

(** *** class IncrementalTwilioStream, class Employees *)

(** [IncrementalTwilioStream.get_updated_state]. *)
Definition get_updated_state (current_stream_state latest_record : gmap string pyval)
  : gmap string pyval := ∅.

(** [Employees.cursor_field]. *)
Definition Employees_cursor_field : string := "start_date".

(** [Employees.stream_slices]. *)
Definition Employees_stream_slices : emission pyval :=
  throw NotImplementedError.

(** *** class SourceTwilio *)

(** [HttpBasicAuthenticator((account_sid, auth_token), "Basic")]: the
    token is the base64 text of [account_sid:auth_token]; the two parts
    are kept as they are. *)
Record authenticator : Type := {
  auth_method : string;
  auth : pyval * pyval
}.

(** [SourceTwilio.check_connection]. *)
Definition check_connection (config : gmap string pyval)
  : bool * option string := (true, None).

(** [SourceTwilio.streams]: every stream is built with the same
    authenticator. *)
Definition streams (config : gmap string pyval)
  : result (authenticator * list stream) :=
  account_sid ← getitem (PDict config) "account_sid";
  auth_token ← getitem (PDict config) "auth_token";
  let auth := {| auth_method := "Basic"; auth := (account_sid, auth_token) |} in
  Ok (auth,
      [ Accounts; Addresses; DependentPhoneNumbers; Applications;
        AvailablePhoneNumberCountries; AvailablePhoneNumbersLocal;
        AvailablePhoneNumbersMobile; AvailablePhoneNumbersTollFree;
        IncomingPhoneNumbers; Keys; Calls; Conferences;
        ConferenceParticipants; OutgoingCallerIds; Recordings;
        Transcriptions; Queues; Messages; MessageMedia; UsageRecords;
        UsageTriggers; Alerts ]).

(** *** Paths and response parsing *)

(** The [name] of a stream, and its [data_field]: the name unless the
    class sets it. *)
Definition name (s : stream) : string :=
  match s with
  | TwilioStream n => n
  | TwilioNestedStream n _ _ _ _ => n
  | DependentPhoneNumbersStream n _ => n
  end.

Definition data_field (s : stream) : string :=
  match s with
  | TwilioStream n => n
  | TwilioNestedStream _ _ d _ _ => d
  | DependentPhoneNumbersStream n _ => n
  end.

Section Formatting.

(** [keys_in_order] as in [Py.iter]; [str_of] is what an f-string makes
    of a value, the value itself when it is a [str]. *)
Variable keys_in_order : gmap string pyval → list string.
Variable str_of : pyval → string.

(** [TwilioStream.parse_response]: the generator evaluates
    [response.json().get(self.data_field, [])] and yields from it. *)
Definition parse_response (s : stream) (response : requests.Response)
  : emission pyval :=
  match (body ← requests.json response;
         records ← get body (data_field s) (PList []);
         iter keys_in_order records) with
  | Ok items => (items, None)
  | Raise e => throw e
  end.

(** [path] of a stream for one of its slices: [TwilioStream.path],
    [TwilioNestedStream.path] and [DependentPhoneNumbers.path]. *)
Definition path (s : stream) (stream_slice : pyval) : result pyval :=
  match s with
  | TwilioStream n => Ok (PStr (Str.title n ++ ".json"))
  | TwilioNestedStream _ _ _ _ _ => getitem stream_slice "subresource_uri"
  | DependentPhoneNumbersStream _ _ =>
      account_sid ← getitem stream_slice "account_sid";
      sid ← getitem stream_slice "sid";
      Ok (PStr ("Accounts/" ++ str_of account_sid ++ "/Addresses/"
                ++ str_of sid ++ "/DependentPhoneNumbers.json"))
  end.

End Formatting.

End Twilio.

(* ===================================================================== *)
(** ** source_woocommerce/source.py *)
(* ===================================================================== *)

Module Woocommerce.

Import Py.

Abbreviation token := (gmap string string).

(** *** class WoocommerceStream *)

Definition order_field : string := "date_modified_gmt".
Definition order : string := "asc".
(** [f"{self.per_page}"], with [per_page = 10]. *)
Definition per_page : string := "10".

(** An argument of a constructor call: a string of the configuration or
    an authenticator with its token. *)
Inductive arg : Type :=
| AStr (s : string)
| TokenAuthenticator (token : string).

(** The classes that the module binds a name to. *)
Inductive class : Type :=
| WoocommerceStream
| IncrementalWoocommerceStream
| Customers
| Orders.

(** Looking a class name up in the module's namespace. *)
Definition lookup (name : string) : result class :=
  if String.eqb name "WoocommerceStream" then Ok WoocommerceStream
  else if String.eqb name "IncrementalWoocommerceStream"
  then Ok IncrementalWoocommerceStream
  else if String.eqb name "Customers" then Ok Customers
  else if String.eqb name "Orders" then Ok Orders
  else Raise NameError.

(** The two base classes leave [path] abstract. *)
Definition is_abstract (c : class) : bool :=
  match c with
  | WoocommerceStream | IncrementalWoocommerceStream => true
  | Customers | Orders => false
  end.

(** A constructed stream. *)
Record instance : Type := {
  cls : class;
  url : arg;
  consumer_key : arg;
  consumer_secret : arg;
  start_date : arg;
  kwargs : gmap string arg
}.

(** Calling class [c] with the keyword arguments [call]:
    [WoocommerceStream.__init__] has the parameters
    [url], [consumer_key], [consumer_secret] and [start_date] without
    defaults, so a call that leaves one out is a TypeError; what is left
    of the keywords goes to the base class. *)
Definition init (c : class) (call : gmap string arg) : result instance :=
  if is_abstract c then Raise TypeError
  else
    match call !! "url", call !! "consumer_key",
          call !! "consumer_secret", call !! "start_date" with
    | Some u, Some k, Some s, Some d =>
        Ok {| cls := c; url := u; consumer_key := k; consumer_secret := s;
              start_date := d;
              kwargs := delete "url" (delete "consumer_key"
                          (delete "consumer_secret" (delete "start_date" call))) |}
    | _, _, _, _ => Raise TypeError
    end.

(** A constructor call by name: the name is looked up, then called. *)
Definition construct (name : string) (call : gmap string arg) : result instance :=
  c ← lookup name;
  init c call.

(** [WoocommerceStream.next_page_token]. *)
Definition next_page_token (response : requests.Response)
  : result (option token) :=
  match requests.links response !! "next" with
  | Some next_page =>
      if negb (Nat.eqb (size next_page) 0) then
        q ← urllib.urlparse_query
              (match next_page !! "url" with
               | Some u => PStr u
               | None => PNone
               end);
        Ok (Some (dict (urllib.parse_qsl q)))
      else Ok None
  | None => Ok None
  end.

Definition token_truthy (next_page_token : option token) : bool :=
  match next_page_token with
  | Some t => negb (Nat.eqb (size t) 0)
  | None => false
  end.

(** [WoocommerceStream.request_params]. *)
Definition request_params (next_page_token : option token)
  : gmap string string :=
  let params : gmap string string := {["per_page" := per_page]} in
  if token_truthy next_page_token then
    default ∅ next_page_token ∪ params
  else
    <["orderby" := order_field]> (<["order" := order]> params).

(** *** class IncrementalWoocommerceStream *)

Definition cursor_field : string := "date_modified_gmt".

(** [IncrementalWoocommerceStream.get_updated_state]. *)
Definition get_updated_state
    (current_stream_state latest_record : gmap string pyval)
  : result (gmap string pyval) :=
  latest ← get (PDict latest_record) cursor_field (PStr "");
  current ← get (PDict current_stream_state) cursor_field (PStr "");
  newest ← max latest current;
  Ok {[cursor_field := newest]}.

(** The states that the engine checkpoints while it reads [records],
    starting from [state]: [get_updated_state] after every record. *)
Fixpoint checkpoints (state : gmap string pyval)
    (records : list (gmap string pyval))
  : result (list (gmap string pyval)) :=
  match records with
  | [] => Ok []
  | latest_record :: more =>
      state' ← get_updated_state state latest_record;
      states ← checkpoints state' more;
      Ok (state' :: states)
  end.

(** *** class SourceWoocommerce *)

(** [SourceWoocommerce.check_connection]. *)
Definition check_connection (config : gmap string pyval)
  : bool * option string := (true, None).

(** [SourceWoocommerce.streams]: the list display evaluates its two
    constructor calls from left to right. *)
Definition streams (config : gmap string pyval) : result (list instance) :=
  let auth := TokenAuthenticator "api_key" in
  customers ← construct "Customers" {["authenticator" := auth]};
  employees ← construct "Employees" {["authenticator" := auth]};
  Ok [customers; employees].

(** [WoocommerceStream.parse_response]: one empty record, whatever the
    response. *)
Definition parse_response (response : requests.Response)
  : emission (gmap string pyval) := yield ∅.

(** The state after [records] have been read one after the other. *)
Fixpoint final_state (state : gmap string pyval)
    (records : list (gmap string pyval)) : result (gmap string pyval) :=
  match records with
  | [] => Ok state
  | latest_record :: more =>
      state' ← get_updated_state state latest_record;
      final_state state' more
  end.

End Woocommerce.

(* ===================================================================== *)
(** ** The vocabulary of the properties *)
(* ===================================================================== *)

Import Py.

(** The two upstream APIs and their [next_page_token]. *)
Inductive api : Type :=
| TwilioAPI
| WoocommerceAPI.

Definition next_page_token_of (a : api) (response : requests.Response)
  : result (option (gmap string string)) :=
  match a with
  | TwilioAPI => Twilio.next_page_token response
  | WoocommerceAPI => Woocommerce.next_page_token response
  end.

(** A response without a continuation marker: a Twilio body is a JSON
    object with no truthy [next_page_uri]; a WooCommerce response has no
    non-empty link whose relation is [next]. *)
Definition lacks_marker (a : api) (response : requests.Response) : Prop :=
  match a with
  | TwilioAPI =>
      ∃ body : gmap string pyval,
        requests.json response = Ok (PDict body) ∧
        truthy (default PNone (body !! "next_page_uri")) = false
  | WoocommerceAPI =>
      ∀ link : gmap string string,
        requests.links response !! "next" = Some link → size link = 0
  end.

(** Lexicographic order on strings. *)
Definition str_le (a b : string) : Prop := String.leb a b = true.

(** The cursor value of a state or of a record, the empty string when
    the field is missing. *)
Definition cursor (m : gmap string pyval) : pyval :=
  default (PStr "") (m !! Woocommerce.cursor_field).

Definition is_str (v : pyval) : bool :=
  match v with
  | PStr _ => true
  | _ => false
  end.

Definition text (v : pyval) : string :=
  match v with
  | PStr s => s
  | _ => ""
  end.

(** The cursor field is missing or holds a string. *)
Definition str_cursor (m : gmap string pyval) : Prop :=
  is_str (cursor m) = true.

(** [item] carries the reference that the dependent stream [s] looks
    for: a truthy entry under [subresource_uri_key] in its
    [subresource_uris], or the two key fields. *)
Definition has_reference (s : Twilio.stream) (item : pyval) : bool :=
  match s, item with
  | Twilio.TwilioNestedStream _ _ _ key _, PDict m =>
      match m !! "subresource_uris" with
      | Some (PDict uris) =>
          match uris !! key with
          | Some reference => truthy reference
          | None => false
          end
      | _ => false
      end
  | Twilio.DependentPhoneNumbersStream _ _, PDict m =>
      bool_decide (is_Some (m !! "sid")) &&
      bool_decide (is_Some (m !! "account_sid"))
  | _, _ => false
  end.

(** The exists-predicate of one guarded field: the field is there, is
    truthy and differs from the sentinel. *)
Definition field_exists (item : pyval) (guard : string * pyval) : bool :=
  match item with
  | PDict m =>
      match m !! guard.1 with
      | Some x => truthy x && negb (py_eq x guard.2)
      | None => false
      end
  | _ => false
  end.

(** [item] fails none of the exists-predicates of [s]. *)
Definition passes_guards (s : Twilio.stream) (item : pyval) : bool :=
  match s with
  | Twilio.TwilioNestedStream _ _ _ _ validation =>
      forallb (field_exists item) validation
  | _ => true
  end.

(** The slice that [s] derives from a parent record. *)
Definition slice_of (s : Twilio.stream) (item : pyval) : pyval :=
  match s, item with
  | Twilio.TwilioNestedStream _ _ _ key _, PDict m =>
      match m !! "subresource_uris" with
      | Some (PDict uris) =>
          PDict {["subresource_uri" := default PNone (uris !! key)]}
      | _ => PNone
      end
  | Twilio.DependentPhoneNumbersStream _ _, PDict m =>
      PDict (<["sid" := default PNone (m !! "sid")]>
               {["account_sid" := default PNone (m !! "account_sid")]})
  | _, _ => PNone
  end.

Definition parent_of (s : Twilio.stream) : option Twilio.stream :=
  match s with
  | Twilio.TwilioStream _ => None
  | Twilio.TwilioNestedStream _ parent _ _ _ => Some parent
  | Twilio.DependentPhoneNumbersStream _ parent => Some parent
  end.

(** The guards of a stream: its [media_exist_validation]. *)
Definition guards_of (s : Twilio.stream) : list (string * pyval) :=
  match s with
  | Twilio.TwilioNestedStream _ _ _ _ validation => validation
  | _ => []
  end.

(** What [TwilioNestedStream.stream_slices] does with one parent
    record. *)
Definition slices_for (s : Twilio.stream) (item : pyval) : emission pyval :=
  match s with
  | Twilio.TwilioNestedStream _ _ _ key validation =>
      Twilio.nested_item key validation item
  | Twilio.DependentPhoneNumbersStream _ _ => Twilio.dependent_item item
  | Twilio.TwilioStream _ => skip
  end.

(** A Twilio response that [next_page_token] cannot read: its body is
    not a JSON object, or its [next_page_uri] is truthy and not a
    string. *)
Definition malformed_marker (response : requests.Response) : Prop :=
  (∃ v : pyval, requests.json response = Ok v ∧
                match v with PDict _ => False | _ => True end) ∨
  (∃ (body : gmap string pyval) (marker : pyval),
     requests.json response = Ok (PDict body) ∧
     body !! "next_page_uri" = Some marker ∧
     truthy marker = true ∧ is_str marker = false).

(** A parent record on which [TwilioNestedStream.stream_slices] can call
    its two [get]s: a mapping whose [subresource_uris], if it has one,
    is a mapping. *)
Definition well_shaped (item : pyval) : bool :=
  match item with
  | PDict m =>
      match m !! "subresource_uris" with
      | Some (PDict _) | None => true
      | Some _ => false
      end
  | _ => false
  end.

(** The parameters of the first request of a WooCommerce stream. *)
Definition first_page_params : gmap string string :=
  <["orderby" := "date_modified_gmt"]>
    (<["order" := "asc"]> {["per_page" := "10"]}).

(* ===================================================================== *)
(** ** Sample responses, records and streams *)
(* ===================================================================== *)

(** The last page of a Twilio listing, whose [next_page_uri] is null. *)
Definition twilio_last_page : requests.Response :=
  {| requests.json :=
       Ok (PDict (<["accounts" := PList []]> {["next_page_uri" := PNone]}));
     requests.link_header := None |}.

(** The last page of a WooCommerce listing: only a [prev] link. *)
Definition woocommerce_last_page : requests.Response :=
  {| requests.json := Ok (PList []);
     requests.link_header :=
       Some "<https://shop.example/wp-json/wc/v3/orders?page=1>; rel=prev" |}.

(** The first page of a two-page listing. *)
Definition twilio_first_page : requests.Response :=
  {| requests.json :=
       Ok (PDict (<["accounts" := PList [PDict {["sid" := PStr "AC1"]}]]>
                    {["next_page_uri" :=
                        PStr "/2010-04-01/Accounts.json?PageToken=abc"]}));
     requests.link_header := None |}.

(** A response whose header is [Link: <url?page=2>; rel="next"]. *)
Definition woocommerce_first_page : requests.Response :=
  {| requests.json := Ok (PList []);
     requests.link_header :=
       Some ("<url?page=2>; rel="
             ++ String Str.dquote ("next" ++ String Str.dquote "")) |}.

(** Three records of a stream, the second without the cursor field and
    the third older than the first. *)
Definition sample_records : list (gmap string pyval) :=
  [ {[ "id" := PInt 1; "date_modified_gmt" := PStr "2021-06-02T10:00:00" ]};
    {[ "id" := PInt 2 ]};
    {[ "id" := PInt 3; "date_modified_gmt" := PStr "2021-06-01T09:30:00" ]} ].

(** An account, with the references to its sub-resources. *)
Definition sample_account (sid : string) : pyval :=
  PDict {[ "sid" := PStr sid;
           "subresource_uris" :=
             PDict {[ "addresses" :=
                        PStr ("/2010-04-01/Accounts/" ++ sid ++ "/Addresses.json");
                      "messages" :=
                        PStr ("/2010-04-01/Accounts/" ++ sid ++ "/Messages.json") ]} ]}.

(** A message with its [num_media] field, if any. *)
Definition sample_message (sid : string) (num_media : option pyval) : pyval :=
  PDict (<["sid" := PStr sid]>
         (<["subresource_uris" :=
              PDict {[ "media" :=
                         PStr ("/2010-04-01/Accounts/AC1/Messages/" ++ sid
                               ++ "/Media.json") ]}]>
          (match num_media with
           | Some n => {["num_media" := n]}
           | None => ∅
           end))).

(** The messages of the first account. *)
Definition sample_messages : list pyval :=
  [ sample_message "SM1" (Some (PStr "2"));
    sample_message "SM2" (Some (PStr "0"));
    sample_message "SM3" None;
    sample_message "SM4" (Some (PStr "1")) ].

(** What the API holds: two accounts, and four messages under the first
    of them. *)
Definition sample_read_records (s : Twilio.stream) (stream_slice : pyval)
  : emission pyval :=
  match s with
  | Twilio.TwilioStream _ => ([sample_account "AC1"; sample_account "AC2"], None)
  | Twilio.TwilioNestedStream name _ _ _ _ =>
      if String.eqb name "messages" &&
         py_eq stream_slice
           (PDict {["subresource_uri" :=
                      PStr "/2010-04-01/Accounts/AC1/Messages.json"]})
      then (sample_messages, None)
      else skip
  | Twilio.DependentPhoneNumbersStream _ _ => skip
  end.

(** The one slice of a stream without [stream_slices] of its own. *)
Definition one_slice : emission pyval := ([PNone], None).

(** The fields of message [SM2], whose [num_media] is ["0"]. *)
Definition message_without_media : gmap string pyval :=
  <["sid" := PStr "SM2"]>
    (<["subresource_uris" :=
         PDict {[ "media" :=
                    PStr "/2010-04-01/Accounts/AC1/Messages/SM2/Media.json" ]}]>
       {["num_media" := PStr "0"]}).

(** The fields of message [SM3], which has no [num_media]. *)
Definition message_without_count : gmap string pyval :=
  <["sid" := PStr "SM3"]>
    {["subresource_uris" :=
        PDict {[ "media" :=
                   PStr "/2010-04-01/Accounts/AC1/Messages/SM3/Media.json" ]}]}.

(** A page whose [next_page_uri] is a number. *)
Definition twilio_bad_marker_page : requests.Response :=
  {| requests.json :=
       Ok (PDict (<["accounts" := PList []]> {["next_page_uri" := PInt 2]}));
     requests.link_header := None |}.

(** A page with two accounts. *)
Definition twilio_accounts_page : requests.Response :=
  {| requests.json :=
       Ok (PDict (<["accounts" :=
                      PList [sample_account "AC1"; sample_account "AC2"]]>
                    {["next_page_uri" := PNone]}));
     requests.link_header := None |}.

(** An API whose listing of accounts breaks off after the first
    account. *)
Definition failing_read_records (s : Twilio.stream) (stream_slice : pyval)
  : emission pyval :=
  ([sample_account "AC1"], Some JSONDecodeError).

(** An address; the second of the three below lacks its [sid]. *)
Definition sample_address (sid : option string) : pyval :=
  PDict (match sid with
         | Some sid => <["sid" := PStr sid]> {["account_sid" := PStr "AC1"]}
         | None => {["account_sid" := PStr "AC1"]}
         end).

Definition address_read_records (s : Twilio.stream) (stream_slice : pyval)
  : emission pyval :=
  match s with
  | Twilio.TwilioStream _ => ([sample_account "AC1"], None)
  | Twilio.TwilioNestedStream _ _ _ _ _ =>
      ([sample_address (Some "AD1"); sample_address None;
        sample_address (Some "AD3")], None)
  | Twilio.DependentPhoneNumbersStream _ _ => skip
  end.

(* ===================================================================== *)
(** ** Lemmas on generators, maps and the string order *)
(* ===================================================================== *)

Section Generators.

Context {A B : Type}.

Lemma for_each_nil (e : option exn) (body : A → emission B) :
  for_each ([], e) body = ([], e).
Proof. reflexivity. Qed.

Lemma for_each_cons (x : A) (l : list A) (e : option exn)
    (body : A → emission B) :
  for_each (x :: l, e) body = and_then (body x) (for_each (l, e) body).
Proof. reflexivity. Qed.

Lemma and_then_assoc (p q r : emission B) :
  and_then (and_then p q) r = and_then p (and_then q r).
Proof.
  destruct p as [ps [ep|]], q as [qs [eq|]], r as [rs er];
    unfold and_then; simpl; try reflexivity.
  by rewrite <- app_assoc.
Qed.

Lemma and_then_skip_l (q : emission B) : and_then skip q = q.
Proof. by destruct q. Qed.

(** Once the source ends in an exception, so does the loop. *)
Lemma for_each_raises (l : list A) (e : exn) (body : A → emission B) :
  ∃ e', (for_each (l, Some e) body).2 = Some e'.
Proof.
  induction l as [|x l IH].
  - by exists e.
  - rewrite for_each_cons. destruct IH as [e' IH].
    unfold and_then. destruct (body x) as [ys [ex|]]; simpl; eauto.
Qed.

Lemma for_each_app (l1 l2 : list A) (e : option exn) (body : A → emission B) :
  for_each ((l1 ++ l2)%list, e) body
  = and_then (for_each (l1, None) body) (for_each (l2, e) body).
Proof.
  induction l1 as [|x l1 IH].
  - simpl. by rewrite for_each_nil, and_then_skip_l.
  - change ((x :: l1) ++ l2)%list with (x :: (l1 ++ l2))%list.
    by rewrite !for_each_cons, IH, and_then_assoc.
Qed.

(** A loop over what a loop yields is a nested loop. *)
Lemma for_each_and_then (p q : emission A) (body : A → emission B) :
  for_each (and_then p q) body
  = and_then (for_each p body) (for_each q body).
Proof.
  destruct p as [ps [ep|]], q as [qs eq]; unfold and_then at 1; simpl.
  - destruct (for_each_raises ps ep body) as [e' He].
    destruct (for_each (ps, Some ep) body) as [zs ez].
    simpl in He. subst ez. reflexivity.
  - apply for_each_app.
Qed.

End Generators.

Lemma for_each_assoc {A B C} (src : emission A) (f : A → emission B)
    (g : B → emission C) :
  for_each (for_each src f) g = for_each src (fun x => for_each (f x) g).
Proof.
  destruct src as [l e]. induction l as [|x l IH].
  - reflexivity.
  - by rewrite !for_each_cons, for_each_and_then, IH.
Qed.

Section StringOrder.

Lemma ascii_compare_refl (c : ascii) : Ascii.compare c c = Eq.
Proof. unfold Ascii.compare. apply N.compare_refl. Qed.

Lemma string_compare_refl (s : string) : String.compare s s = Eq.
Proof.
  induction s as [|c s IH]; simpl; [reflexivity|].
  by rewrite ascii_compare_refl.
Qed.

Lemma str_le_refl (s : string) : str_le s s.
Proof. unfold str_le, String.leb. by rewrite string_compare_refl. Qed.

Lemma str_le_empty (s : string) : str_le "" s.
Proof. by destruct s. Qed.

Lemma str_le_total (a b : string) : str_le a b ∨ str_le b a.
Proof. apply String.leb_total. Qed.

(** When [b > a] is false, [b <= a]. *)
Lemma not_gt_str_le (a b : string) :
  String.compare b a ≠ Gt → str_le b a.
Proof. unfold str_le, String.leb. by destruct (String.compare b a). Qed.

Lemma gt_str_le (a b : string) :
  String.compare b a = Gt → str_le a b.
Proof.
  intros H. unfold str_le, String.leb.
  rewrite String.compare_antisym, H. reflexivity.
Qed.

Lemma str_le_trans (a b c : string) : str_le a b → str_le b c → str_le a c.
Proof.
  unfold str_le, String.leb. revert b c.
  induction a as [|x a IH]; intros [|y b] [|z c]; simpl; try done.
  unfold Ascii.compare.
  destruct (N.compare_spec (N_of_ascii x) (N_of_ascii y)) as [Hxy|Hxy|Hxy];
    destruct (N.compare_spec (N_of_ascii y) (N_of_ascii z)) as [Hyz|Hyz|Hyz];
    try done.
  - rewrite Hxy, Hyz, N.compare_refl. apply IH.
  - intros _ _. rewrite Hxy. by apply N.compare_lt_iff in Hyz as ->.
  - intros _ _. rewrite <- Hyz. by apply N.compare_lt_iff in Hxy as ->.
  - intros _ _.
    assert (N_of_ascii x < N_of_ascii z)%N as Hxz by (by etrans).
    by apply N.compare_lt_iff in Hxz as ->.
Qed.

End StringOrder.

(* ===================================================================== *)
(** ** Pagination *)
(* ===================================================================== *)

(** C1.  When a response carries no continuation marker (a Twilio body
    that is a JSON object without a truthy [next_page_uri]; a
    WooCommerce response without a non-empty [next] link),
    [next_page_token] returns [None] and does not raise: the page was
    the last one. *)
Theorem next_page_token_without_marker
    (a : api) (response : requests.Response) :
  lacks_marker a response →
  next_page_token_of a response = Ok None.
Proof.
  destruct a; simpl.
  - intros (body & Hjson & Hfalsy).
    unfold Twilio.next_page_token. rewrite Hjson. simpl.
    by rewrite Hfalsy.
  - intros Hlink. unfold Woocommerce.next_page_token.
    destruct (requests.links response !! "next") as [link|] eqn:Hnext;
      [|reflexivity].
    by rewrite (Hlink link eq_refl).
Qed.

Lemma next_page_token_without_marker_witness :
  next_page_token_of TwilioAPI twilio_last_page = Ok None ∧
  next_page_token_of WoocommerceAPI woocommerce_last_page = Ok None.
Proof.
  split.
  - apply (next_page_token_without_marker TwilioAPI twilio_last_page).
    eexists. split; [reflexivity|]. vm_compute. reflexivity.
  - apply (next_page_token_without_marker WoocommerceAPI woocommerce_last_page).
    intros link Hlink. vm_compute in Hlink. discriminate.
Defined.

(** A non-empty mapping has a positive size. *)
Lemma size_lookup_Some {V} (m : gmap string V) (k : string) (v : V) :
  m !! k = Some v → Nat.eqb (size m) 0 = false.
Proof.
  intros Hk. apply Nat.eqb_neq. intros H0.
  apply map_size_empty_iff in H0. subst m.
  by rewrite lookup_empty in Hk.
Qed.

(** C6.  When the [next_page_uri] of a Twilio response has the query
    string [PageToken=abc], [next_page_token] returns the mapping
    [{"PageToken": "abc"}], and [request_params] with that token holds
    both [PageToken = "abc"] and the fixed [PageSize = 100], whatever
    parameters the base class contributed. *)
Theorem page_token_merged_with_page_size
    (response : requests.Response) (body : gmap string pyval)
    (uri : string) (parts : urllib.SplitResult)
    (super_params : gmap string pyval) :
  requests.json response = Ok (PDict body) →
  body !! "next_page_uri" = Some (PStr uri) →
  urllib.urlsplit uri = Ok parts →
  urllib.query parts = "PageToken=abc" →
  Twilio.next_page_token response = Ok (Some {["PageToken" := "abc"]}) ∧
  Twilio.request_params super_params (Some {["PageToken" := "abc"]})
    !! "PageToken" = Some (PStr "abc") ∧
  Twilio.request_params super_params (Some {["PageToken" := "abc"]})
    !! "PageSize" = Some (PInt 100).
Proof.
  intros Hjson Huri Hsplit Hquery. split; [|split].
  - unfold Twilio.next_page_token. rewrite Hjson. simpl. rewrite Huri. simpl.
    destruct uri as [|c uri']; [by vm_compute in Hsplit; simplify_eq|].
    simpl. rewrite Hsplit. simpl. rewrite Hquery. reflexivity.
  - unfold Twilio.request_params. simpl. rewrite map_size_singleton. simpl.
    apply lookup_union_Some_l. rewrite lookup_fmap.
    by rewrite lookup_singleton_eq.
  - unfold Twilio.request_params. simpl. rewrite map_size_singleton. simpl.
    rewrite lookup_union_r.
    + by rewrite lookup_insert_eq.
    + rewrite lookup_fmap. by rewrite lookup_singleton_ne.
Qed.

Lemma page_token_merged_with_page_size_witness :
  Twilio.next_page_token twilio_first_page
    = Ok (Some {["PageToken" := "abc"]}) ∧
  Twilio.request_params ∅ (Some {["PageToken" := "abc"]})
    = <["PageToken" := PStr "abc"]> {["PageSize" := PInt 100]}.
Proof.
  destruct (page_token_merged_with_page_size twilio_first_page
              (<["accounts" := PList [PDict {["sid" := PStr "AC1"]}]]>
                 {["next_page_uri" :=
                     PStr "/2010-04-01/Accounts.json?PageToken=abc"]})
              "/2010-04-01/Accounts.json?PageToken=abc"
              {| urllib.scheme := ""; urllib.netloc := "";
                 urllib.path := "/2010-04-01/Accounts.json";
                 urllib.query := "PageToken=abc"; urllib.fragment := "" |}
              ∅ eq_refl eq_refl eq_refl eq_refl) as (Htoken & _ & _).
  split; [exact Htoken|]. vm_compute. reflexivity.
Defined.

(** C7.  When a WooCommerce response has a link with relation [next]
    whose URL has the query string [page=2] (the header
    [Link: <url?page=2>; rel="next"]), [next_page_token] returns exactly
    the mapping [{"page": "2"}]. *)
Theorem next_link_page_token
    (response : requests.Response) (link : gmap string string)
    (target : string) (parts : urllib.SplitResult) :
  requests.links response !! "next" = Some link →
  link !! "url" = Some target →
  urllib.urlsplit target = Ok parts →
  urllib.query parts = "page=2" →
  Woocommerce.next_page_token response = Ok (Some {["page" := "2"]}).
Proof.
  intros Hnext Hurl Hsplit Hquery.
  unfold Woocommerce.next_page_token. rewrite Hnext.
  rewrite (size_lookup_Some _ _ _ Hurl). simpl.
  rewrite Hurl. simpl. rewrite Hsplit. simpl. rewrite Hquery. reflexivity.
Qed.

Lemma next_link_page_token_witness :
  requests.links woocommerce_first_page
    = {["next" := <["rel" := "next"]> {["url" := "url?page=2"]}]} ∧
  Woocommerce.next_page_token woocommerce_first_page
    = Ok (Some {["page" := "2"]}).
Proof.
  split; [vm_compute; reflexivity|].
  apply (next_link_page_token woocommerce_first_page
           (<["rel" := "next"]> {["url" := "url?page=2"]})
           "url?page=2"
           {| urllib.scheme := ""; urllib.netloc := ""; urllib.path := "url";
              urllib.query := "page=2"; urllib.fragment := "" |});
    vm_compute; reflexivity.
Defined.

(* ===================================================================== *)
(** ** Cursor state *)
(* ===================================================================== *)

(** On string cursors [get_updated_state] keeps the larger of the two. *)
Lemma get_updated_state_str (state record : gmap string pyval) (a b : string) :
  cursor record = PStr a →
  cursor state = PStr b →
  Woocommerce.get_updated_state state record
  = Ok {[Woocommerce.cursor_field :=
           PStr (match String.compare b a with Gt => b | _ => a end)]}.
Proof.
  unfold cursor, Woocommerce.get_updated_state. simpl.
  intros -> ->. simpl. by destruct (String.compare b a).
Qed.

(** The state after one record: its cursor is one of the two cursors and
    is above both. *)
Lemma get_updated_state_max (state record : gmap string pyval) :
  str_cursor state → str_cursor record →
  ∃ v : string,
    Woocommerce.get_updated_state state record
      = Ok {[Woocommerce.cursor_field := PStr v]} ∧
    (v = text (cursor state) ∨ v = text (cursor record)) ∧
    str_le (text (cursor state)) v ∧
    str_le (text (cursor record)) v.
Proof.
  unfold str_cursor. intros Hs Hr.
  destruct (cursor state) as [| | | |b| |] eqn:Hb; try done.
  destruct (cursor record) as [| | | |a| |] eqn:Ha; try done.
  rewrite (get_updated_state_str state record a b Ha Hb). simpl.
  destruct (String.compare b a) eqn:Hcmp; eexists; (split; [reflexivity|]);
    (split; [auto|]); split;
    try apply str_le_refl; try (apply not_gt_str_le; congruence).
  by apply gt_str_le.
Qed.

Lemma cursor_singleton (v : pyval) :
  cursor {[Woocommerce.cursor_field := v]} = v.
Proof. unfold cursor. by rewrite lookup_singleton_eq. Qed.

(** C2, as stated, fails: a record whose cursor field is null makes
    [max] compare [None] with a string, and no state is returned. *)
Lemma get_updated_state_null_cursor :
  Woocommerce.get_updated_state ∅ {[Woocommerce.cursor_field := PNone]}
  = Raise TypeError.
Proof. vm_compute. reflexivity. Qed.

(** C2 (amended).  For a state and records whose cursor field, where
    present, holds a string, [get_updated_state] returns a state after
    every record; the cursor of that state is at or above the cursor of
    the record just read, and the cursors of the successive states,
    starting from the initial one, never decrease (lexicographic order,
    the empty string standing for a missing field).  With one record
    this says that the returned cursor is above both inputs. *)
Theorem checkpointed_cursor_non_decreasing
    (state : gmap string pyval) (records : list (gmap string pyval)) :
  str_cursor state →
  Forall str_cursor records →
  ∃ states : list (gmap string pyval),
    Woocommerce.checkpoints state records = Ok states ∧
    Forall2 (fun record state' =>
               str_le (text (cursor record)) (text (cursor state')))
            records states ∧
    StronglySorted str_le
      (text (cursor state) :: map (fun state' => text (cursor state')) states).
Proof.
  intros Hstate Hrecords. revert state Hstate.
  induction Hrecords as [|record records Hrecord _ IH]; intros state Hstate.
  - exists []. repeat split; repeat constructor.
  - destruct (get_updated_state_max state record Hstate Hrecord)
      as (v & Hstep & _ & Hle_state & Hle_record).
    destruct (IH {[Woocommerce.cursor_field := PStr v]}) as
      (states & Hrest & Hbound & Hsorted).
    { unfold str_cursor. by rewrite cursor_singleton. }
    exists ({[Woocommerce.cursor_field := PStr v]} :: states).
    rewrite cursor_singleton in Hsorted. simpl in Hsorted.
    split; [|split].
    + simpl. rewrite Hstep. simpl. rewrite Hrest. reflexivity.
    + constructor; [|exact Hbound]. by rewrite cursor_singleton.
    + simpl. rewrite cursor_singleton. simpl.
      constructor; [exact Hsorted|].
      constructor; [exact Hle_state|].
      apply StronglySorted_inv in Hsorted as [_ Habove].
      eapply Forall_impl; [exact Habove|].
      intros c Hc. by apply str_le_trans with v.
Qed.

Lemma checkpointed_cursor_non_decreasing_witness :
  ∃ states : list (gmap string pyval),
    Woocommerce.checkpoints ∅ sample_records = Ok states ∧
    Forall2 (fun record state' =>
               str_le (text (cursor record)) (text (cursor state')))
            sample_records states ∧
    StronglySorted str_le
      (text (cursor ∅) :: map (fun state' => text (cursor state')) states).
Proof.
  apply (checkpointed_cursor_non_decreasing ∅ sample_records).
  - reflexivity.
  - repeat constructor.
Defined.

(** C3, as stated, fails twice: the Twilio incremental class returns the
    empty mapping, which has no value at the cursor field; and the
    WooCommerce class raises when a cursor value is not a string. *)
Lemma get_updated_state_not_always_max :
  Twilio.get_updated_state ∅ {["start_date" := PStr "2021-06-01"]}
    !! Twilio.Employees_cursor_field = None ∧
  Woocommerce.get_updated_state
    {[Woocommerce.cursor_field := PStr "2021-05-01T00:00:00"]}
    {[Woocommerce.cursor_field := PInt 20210601]}
  = Raise TypeError.
Proof. split; vm_compute; reflexivity. Qed.

(** C3 (amended).  For the WooCommerce incremental streams, and a state
    and a record whose cursor field, where present, holds a string,
    [get_updated_state] returns the mapping whose one entry, at the
    cursor field, is the maximum of the two cursor values in
    lexicographic order: it is one of the two and is above both.  A
    missing cursor field counts as the empty string, the floor of the
    order, and raises nothing. *)
Theorem get_updated_state_is_max (state record : gmap string pyval) :
  str_cursor state →
  str_cursor record →
  ∃ v : string,
    Woocommerce.get_updated_state state record
      = Ok {[Woocommerce.cursor_field := PStr v]} ∧
    (v = text (cursor state) ∨ v = text (cursor record)) ∧
    str_le (text (cursor state)) v ∧
    str_le (text (cursor record)) v ∧
    (∀ s : string, str_le "" s).
Proof.
  intros Hstate Hrecord.
  destruct (get_updated_state_max state record Hstate Hrecord)
    as (v & Hstep & Hone & Hle_state & Hle_record).
  exists v. repeat split; auto using str_le_empty.
Qed.

Lemma get_updated_state_is_max_witness :
  ∃ v : string,
    Woocommerce.get_updated_state
      {["date_modified_gmt" := PStr "2021-06-02T10:00:00"]}
      {["id" := PInt 2]}
      = Ok {[Woocommerce.cursor_field := PStr v]} ∧
    v = "2021-06-02T10:00:00".
Proof.
  destruct (get_updated_state_is_max
              {["date_modified_gmt" := PStr "2021-06-02T10:00:00"]}
              {["id" := PInt 2]})
    as (v & Hstep & _); [reflexivity|reflexivity|].
  exists v. split; [exact Hstep|].
  vm_compute in Hstep. by simplify_eq.
Defined.

(* ===================================================================== *)
(** ** Dependent streams *)
(* ===================================================================== *)

(** The validation loop on a record that is a mapping: it ends with a
    truthy value exactly when every guarded field exists. *)
Lemma validate_truthy (validation : list (string * pyval))
    (m : gmap string pyval) (validated : pyval) :
  truthy validated = true →
  ∃ v : pyval,
    Twilio.validate validation (PDict m) validated = Ok v ∧
    truthy v = forallb (field_exists (PDict m)) validation.
Proof.
  revert validated.
  induction validation as [|[key value] more IH]; intros validated Hv.
  - by exists validated.
  - simpl.
    destruct (m !! key) as [x|] eqn:Hx; simpl.
    + destruct (truthy x) eqn:Htx; simpl.
      * destruct (py_eq x value); simpl.
        -- by exists (PBool false).
        -- by apply IH.
      * exists x. by rewrite Htx.
    + by exists PNone.
Qed.

(** A guard that does not hold makes the conjunction of guards false. *)
Lemma forallb_elem_false {X} (f : X → bool) (l : list X) (x : X) :
  x ∈ l → f x = false → forallb f l = false.
Proof.
  induction 1 as [x l|x y l _ IH]; simpl; intros Hx.
  - by rewrite Hx.
  - rewrite (IH Hx). apply andb_false_r.
Qed.

(** A record that fails a guard yields no slice; when it carries its
    reference, the loop body also raises nothing. *)
Lemma nested_item_guarded (key : string) (validation : list (string * pyval))
    (name data_field : string) (parent : Twilio.stream)
    (m : gmap string pyval) :
  let s := Twilio.TwilioNestedStream name parent data_field key validation in
  forallb (field_exists (PDict m)) validation = false →
  (Twilio.nested_item key validation (PDict m)).1 = [] ∧
  (has_reference s (PDict m) = true →
   Twilio.nested_item key validation (PDict m) = skip).
Proof.
  simpl. intros Hguard. unfold Twilio.nested_item. simpl.
  destruct (validate_truthy validation m (PBool true) eq_refl)
    as (v & Hval & Htruthy).
  rewrite Hguard in Htruthy.
  destruct (m !! "subresource_uris") as [[| | | | | |uris]|]; simpl;
    try (split; [reflexivity|discriminate]).
  destruct (uris !! key) as [reference|]; simpl; [|by split].
  destruct (truthy reference); [|by split].
  rewrite Hval, Htruthy. by split.
Qed.

(** A record with its reference that passes every guard yields its
    slice. *)
Lemma nested_item_accepted (key : string) (validation : list (string * pyval))
    (name data_field : string) (parent : Twilio.stream) (item : pyval) :
  let s := Twilio.TwilioNestedStream name parent data_field key validation in
  has_reference s item = true →
  passes_guards s item = true →
  Twilio.nested_item key validation item = yield (slice_of s item).
Proof.
  simpl. destruct item as [| | | | | |m]; try done.
  unfold Twilio.nested_item. simpl.
  destruct (m !! "subresource_uris") as [[| | | | | |uris]|]; try done.
  simpl. destruct (uris !! key) as [reference|]; try done.
  simpl. intros -> Hguards.
  destruct (validate_truthy validation m (PBool true) eq_refl)
    as (v & Hval & Htruthy).
  rewrite Hguards in Htruthy. by rewrite Hval, Htruthy.
Qed.

Lemma dependent_item_accepted (name : string) (parent : Twilio.stream)
    (item : pyval) :
  let s := Twilio.DependentPhoneNumbersStream name parent in
  has_reference s item = true →
  Twilio.dependent_item item = yield (slice_of s item).
Proof.
  simpl. destruct item as [| | | | | |m]; try done.
  unfold Twilio.dependent_item. simpl.
  intros [[sid Hsid]%bool_decide_eq_true [acc Hacc]%bool_decide_eq_true]%andb_prop.
  by rewrite Hsid, Hacc.
Qed.

Section Slices.

Variable default_stream_slices : emission pyval.
Variable read_records : Twilio.stream → pyval → emission pyval.

Abbreviation stream_slices :=
  (Twilio.stream_slices default_stream_slices read_records).
Abbreviation records :=
  (Twilio.records default_stream_slices read_records).

(** The slices of a dependent stream, record by record of its parent. *)
Lemma stream_slices_by_record (s parent : Twilio.stream) :
  parent_of s = Some parent →
  stream_slices s = for_each (records parent) (slices_for s).
Proof.
  destruct s; simpl; intros [= ->]; unfold Twilio.records;
    by rewrite for_each_assoc.
Qed.

(** Records that all yield their slice give the list of their slices. *)
Lemma for_each_yield (s : Twilio.stream) (items : list pyval) :
  Forall (fun item => slices_for s item = yield (slice_of s item)) items →
  for_each (items, None) (slices_for s) = (map (slice_of s) items, None).
Proof.
  induction 1 as [|item items Hitem _ IH]; [reflexivity|].
  by rewrite for_each_cons, Hitem, IH.
Qed.

(** A record that yields nothing and raises nothing can be left out. *)
Lemma for_each_skip (s : Twilio.stream) (before after : list pyval)
    (item : pyval) (e : option exn) :
  slices_for s item = skip →
  for_each ((before ++ item :: after)%list, e) (slices_for s)
  = for_each ((before ++ after)%list, e) (slices_for s).
Proof.
  intros Hskip.
  by rewrite !for_each_app, for_each_cons, Hskip, and_then_skip_l.
Qed.

End Slices.

(** C4.  When the parent of a dependent stream emits [N] records and
    then ends, each record carrying the reference that the stream looks
    for and failing none of its exists-predicates, [stream_slices]
    yields exactly [N] slices and ends: the slice of each parent record,
    in the order of the records. *)
Theorem dependent_stream_one_slice_per_record
    (default_stream_slices : emission pyval)
    (read_records : Twilio.stream → pyval → emission pyval)
    (s parent : Twilio.stream) (items : list pyval) :
  parent_of s = Some parent →
  Twilio.records default_stream_slices read_records parent = (items, None) →
  Forall (fun item => has_reference s item = true ∧
                      passes_guards s item = true) items →
  Twilio.stream_slices default_stream_slices read_records s
    = (map (slice_of s) items, None) ∧
  length (Twilio.stream_slices default_stream_slices read_records s).1
    = length items.
Proof.
  intros Hparent Hrecords Hitems.
  assert (Twilio.stream_slices default_stream_slices read_records s
          = (map (slice_of s) items, None)) as Hslices.
  { rewrite (stream_slices_by_record _ _ s parent Hparent), Hrecords.
    apply for_each_yield.
    eapply Forall_impl; [exact Hitems|].
    intros item [Href Hguards].
    destruct s as [name|name up data_field key validation|name up];
      simpl; try done.
    - by apply (nested_item_accepted key validation name data_field up).
    - by apply (dependent_item_accepted name up). }
  split; [exact Hslices|].
  rewrite Hslices. simpl. apply length_map.
Qed.

Lemma dependent_stream_one_slice_per_record_witness :
  Twilio.stream_slices one_slice sample_read_records Twilio.Addresses
  = ([ PDict {["subresource_uri" :=
                 PStr "/2010-04-01/Accounts/AC1/Addresses.json"]};
       PDict {["subresource_uri" :=
                 PStr "/2010-04-01/Accounts/AC2/Addresses.json"]} ], None).
Proof.
  destruct (dependent_stream_one_slice_per_record one_slice sample_read_records
              Twilio.Addresses Twilio.Accounts
              [sample_account "AC1"; sample_account "AC2"])
    as [Hslices _].
  - reflexivity.
  - reflexivity.
  - repeat constructor.
  - rewrite Hslices. vm_compute. reflexivity.
Defined.

(** A record that misses one guard of the stream yields no slice, and
    the slices of the stream are those of the other records. *)
Lemma guarded_record_left_out
    (default_stream_slices : emission pyval)
    (read_records : Twilio.stream → pyval → emission pyval)
    (s parent : Twilio.stream) (m : gmap string pyval)
    (guard : string * pyval) :
  parent_of s = Some parent →
  guard ∈ guards_of s →
  field_exists (PDict m) guard = false →
  (slices_for s (PDict m)).1 = [] ∧
  (has_reference s (PDict m) = true →
   ∀ (before after : list pyval) (e : option exn),
     Twilio.records default_stream_slices read_records parent
       = ((before ++ PDict m :: after)%list, e) →
     Twilio.stream_slices default_stream_slices read_records s
       = for_each ((before ++ after)%list, e) (slices_for s)).
Proof.
  intros Hparent Hin Hguard.
  destruct s as [name|name up data_field key validation|name up];
    simpl in Hin; try by apply elem_of_nil in Hin.
  pose proof (forallb_elem_false _ _ _ Hin Hguard) as Hall.
  destruct (nested_item_guarded key validation name data_field up m Hall)
    as [Hnone Hskip].
  split; [exact Hnone|].
  intros Href before after e Hrecords.
  rewrite (stream_slices_by_record _ _ _ parent Hparent), Hrecords.
  apply for_each_skip. by apply Hskip.
Qed.

(** C5.  A parent record whose value at a field listed in
    [media_exist_validation] equals the sentinel of that field makes
    [stream_slices] emit no slice for it; when the record carries a
    valid reference, the slices of the stream are exactly those of the
    other parent records. *)
Theorem sentinel_record_emits_no_slice
    (default_stream_slices : emission pyval)
    (read_records : Twilio.stream → pyval → emission pyval)
    (s parent : Twilio.stream) (m : gmap string pyval)
    (key : string) (sentinel x : pyval) :
  parent_of s = Some parent →
  (key, sentinel) ∈ guards_of s →
  m !! key = Some x →
  py_eq x sentinel = true →
  (slices_for s (PDict m)).1 = [] ∧
  (has_reference s (PDict m) = true →
   ∀ (before after : list pyval) (e : option exn),
     Twilio.records default_stream_slices read_records parent
       = ((before ++ PDict m :: after)%list, e) →
     Twilio.stream_slices default_stream_slices read_records s
       = for_each ((before ++ after)%list, e) (slices_for s)).
Proof.
  intros Hparent Hin Hx Heq.
  apply (guarded_record_left_out _ _ s parent m (key, sentinel) Hparent Hin).
  simpl. rewrite Hx, Heq. apply andb_false_r.
Qed.

Lemma sentinel_record_emits_no_slice_witness :
  has_reference Twilio.MessageMedia (PDict message_without_media) = true ∧
  (slices_for Twilio.MessageMedia (PDict message_without_media)).1 = [] ∧
  Twilio.stream_slices one_slice sample_read_records Twilio.MessageMedia
  = for_each ([ sample_message "SM1" (Some (PStr "2"));
                sample_message "SM3" None;
                sample_message "SM4" (Some (PStr "1")) ], None)
             (slices_for Twilio.MessageMedia).
Proof.
  destruct (sentinel_record_emits_no_slice one_slice sample_read_records
              Twilio.MessageMedia Twilio.Messages message_without_media
              "num_media" (PStr "0") (PStr "0"))
    as [Hnone Hothers].
  - reflexivity.
  - apply list_elem_of_here.
  - reflexivity.
  - reflexivity.
  - split; [reflexivity|]. split; [exact Hnone|].
    apply (Hothers eq_refl [sample_message "SM1" (Some (PStr "2"))]
             [sample_message "SM3" None; sample_message "SM4" (Some (PStr "1"))]
             None).
    vm_compute. reflexivity.
Defined.

(** C9.  A parent record in which a field listed in
    [media_exist_validation] is absent, or holds a falsy value such as
    [None] or the empty string, makes [stream_slices] emit no slice for
    it either; when the record carries a valid reference, the slices of
    the stream are exactly those of the other parent records. *)
Theorem missing_field_record_emits_no_slice
    (default_stream_slices : emission pyval)
    (read_records : Twilio.stream → pyval → emission pyval)
    (s parent : Twilio.stream) (m : gmap string pyval)
    (key : string) (sentinel : pyval) :
  parent_of s = Some parent →
  (key, sentinel) ∈ guards_of s →
  truthy (default PNone (m !! key)) = false →
  (slices_for s (PDict m)).1 = [] ∧
  (has_reference s (PDict m) = true →
   ∀ (before after : list pyval) (e : option exn),
     Twilio.records default_stream_slices read_records parent
       = ((before ++ PDict m :: after)%list, e) →
     Twilio.stream_slices default_stream_slices read_records s
       = for_each ((before ++ after)%list, e) (slices_for s)).
Proof.
  intros Hparent Hin Hfalsy.
  apply (guarded_record_left_out _ _ s parent m (key, sentinel) Hparent Hin).
  simpl. destruct (m !! key) as [x|]; [|reflexivity].
  simpl in Hfalsy. by rewrite Hfalsy.
Qed.

Lemma missing_field_record_emits_no_slice_witness :
  has_reference Twilio.MessageMedia (PDict message_without_count) = true ∧
  (slices_for Twilio.MessageMedia (PDict message_without_count)).1 = [] ∧
  (slices_for Twilio.MessageMedia
     (PDict (<["num_media" := PStr ""]> message_without_count))).1 = [] ∧
  Twilio.stream_slices one_slice sample_read_records Twilio.MessageMedia
  = for_each ([ sample_message "SM1" (Some (PStr "2"));
                sample_message "SM2" (Some (PStr "0"));
                sample_message "SM4" (Some (PStr "1")) ], None)
             (slices_for Twilio.MessageMedia).
Proof.
  destruct (missing_field_record_emits_no_slice one_slice sample_read_records
              Twilio.MessageMedia Twilio.Messages message_without_count
              "num_media" (PStr "0"))
    as [Hnone Hothers].
  - reflexivity.
  - apply list_elem_of_here.
  - reflexivity.
  - split; [reflexivity|]. split; [exact Hnone|]. split.
    + apply (missing_field_record_emits_no_slice one_slice sample_read_records
               Twilio.MessageMedia Twilio.Messages
               (<["num_media" := PStr ""]> message_without_count)
               "num_media" (PStr "0")).
      * reflexivity.
      * apply list_elem_of_here.
      * reflexivity.
    + apply (Hothers eq_refl
               [sample_message "SM1" (Some (PStr "2"));
                sample_message "SM2" (Some (PStr "0"))]
               [sample_message "SM4" (Some (PStr "1"))] None).
      vm_compute. reflexivity.
Defined.

(** What the sample of messages gives: one slice for [SM1] and one for
    [SM4]. *)
Example message_media_slices :
  Twilio.stream_slices one_slice sample_read_records Twilio.MessageMedia
  = ([ PDict {["subresource_uri" :=
                 PStr "/2010-04-01/Accounts/AC1/Messages/SM1/Media.json"]};
       PDict {["subresource_uri" :=
                 PStr "/2010-04-01/Accounts/AC1/Messages/SM4/Media.json"]} ],
     None).
Proof. vm_compute. reflexivity. Qed.

(* ===================================================================== *)
(** ** The sources *)
(* ===================================================================== *)

(** C8.  [check_connection] looks at nothing: it accepts the empty
    configuration, from which [SourceTwilio.streams] cannot even build
    its authenticator, and every other configuration as well. *)
Theorem check_connection_accepts_empty_config :
  Twilio.check_connection ∅ = (true, None) ∧
  Woocommerce.check_connection ∅ = (true, None) ∧
  Twilio.streams ∅ = Raise KeyError ∧
  (∀ config : gmap string pyval,
     Twilio.check_connection config = (true, None) ∧
     Woocommerce.check_connection config = (true, None)).
Proof. repeat split. Qed.

(** C10.  For every configuration [SourceWoocommerce.streams] raises and
    returns no list.  The first element of the list, [Customers] called
    with an authenticator only, is already a TypeError, as is every
    call that leaves out one of [url], [consumer_key], [consumer_secret]
    and [start_date]; and [Employees], which the second element calls,
    is a name that the module does not bind. *)
Theorem woocommerce_streams_always_raises (config : gmap string pyval) :
  Woocommerce.streams config = Raise TypeError ∧
  (∀ l : list Woocommerce.instance, Woocommerce.streams config ≠ Ok l) ∧
  Woocommerce.lookup "Employees" = Raise NameError ∧
  (∀ (c : Woocommerce.class) (call : gmap string Woocommerce.arg)
     (required : string),
     required ∈ ["url"; "consumer_key"; "consumer_secret"; "start_date"] →
     call !! required = None →
     Woocommerce.init c call = Raise TypeError).
Proof.
  split; [reflexivity|]. split; [done|]. split; [reflexivity|].
  intros c call required Hin Hmissing.
  unfold Woocommerce.init. destruct (Woocommerce.is_abstract c); [reflexivity|].
  repeat (apply elem_of_cons in Hin as [->|Hin];
          [rewrite Hmissing; by repeat case_match|]).
  by apply elem_of_nil in Hin.
Qed.

(* ===================================================================== *)
(** ** Further properties: pagination *)
(* ===================================================================== *)

(** X1.  [next_page_token] returns [None] only for a response without a
    continuation marker: while a marker is there, pagination is never
    ended by a [None]. *)
Theorem next_page_token_none_only_without_marker
    (a : api) (response : requests.Response) :
  next_page_token_of a response = Ok None →
  lacks_marker a response.
Proof.
  destruct a; simpl.
  - unfold Twilio.next_page_token.
    destruct (requests.json response) as [v|e]; simpl; [|done].
    destruct v as [| | | | | |body]; simpl; try done.
    destruct (truthy (default PNone (body !! "next_page_uri"))) eqn:Htruthy.
    + destruct (urllib.urlparse_query _); simpl; done.
    + intros _. by exists body.
  - unfold Woocommerce.next_page_token. intros Hnone link Hlink.
    rewrite Hlink in Hnone.
    destruct (Nat.eqb (size link) 0) eqn:Hsize; simpl in Hnone.
    + by apply Nat.eqb_eq.
    + destruct (urllib.urlparse_query _); simpl in Hnone; done.
Qed.

Lemma next_page_token_none_only_without_marker_witness :
  lacks_marker TwilioAPI twilio_last_page ∧
  lacks_marker WoocommerceAPI woocommerce_last_page.
Proof.
  split.
  - apply (next_page_token_none_only_without_marker TwilioAPI twilio_last_page).
    vm_compute. reflexivity.
  - apply (next_page_token_none_only_without_marker WoocommerceAPI
             woocommerce_last_page).
    vm_compute. reflexivity.
Defined.

(** X2.  [TwilioStream.next_page_token] raises AttributeError, and
    returns no token, when the body is not a JSON object or when
    [next_page_uri] is truthy but not a string. *)
Theorem twilio_next_page_token_malformed (response : requests.Response) :
  malformed_marker response →
  Twilio.next_page_token response = Raise AttributeError.
Proof.
  unfold Twilio.next_page_token.
  intros [(v & -> & Hv)|(body & marker & -> & Hmarker & Htruthy & Hstr)]; simpl.
  - by destruct v.
  - rewrite Hmarker. simpl. rewrite Htruthy.
    destruct marker; simpl in *; try done; by rewrite Htruthy.
Qed.

Lemma twilio_next_page_token_malformed_witness :
  Twilio.next_page_token twilio_bad_marker_page = Raise AttributeError ∧
  Twilio.next_page_token woocommerce_last_page = Raise AttributeError.
Proof.
  split.
  - apply (twilio_next_page_token_malformed twilio_bad_marker_page).
    right. exists (<["accounts" := PList []]> {["next_page_uri" := PInt 2]}),
             (PInt 2).
    repeat split.
  - apply (twilio_next_page_token_malformed woocommerce_last_page).
    left. by exists (PList []).
Defined.

(** X3.  The parameters that [TwilioStream.request_params] returns, key
    by key: a parameter of the token, as a string, wins over everything,
    [PageSize] included; otherwise [PageSize] is 100, whatever the base
    class had there; every other parameter is the base class's.  An
    empty token is treated like no token. *)
Theorem twilio_request_params_lookup
    (super_params : gmap string pyval) (next_page_token : option (gmap string string))
    (k : string) :
  Twilio.request_params super_params next_page_token !! k
  = match default ∅ next_page_token !! k with
    | Some v => Some (PStr v)
    | None => if String.eqb k "PageSize" then Some (PInt 100)
              else super_params !! k
    end.
Proof.
  assert (<["PageSize" := PInt Twilio.page_size]> super_params !! k
          = if String.eqb k "PageSize" then Some (PInt 100)
            else super_params !! k) as Hbase.
  { destruct (String.eqb_spec k "PageSize") as [->|Hne].
    - by rewrite lookup_insert_eq.
    - by rewrite lookup_insert_ne. }
  unfold Twilio.request_params, Twilio.token_truthy.
  destruct next_page_token as [t|]; simpl.
  - destruct (Nat.eqb (size t) 0) eqn:Hsize; simpl.
    + apply Nat.eqb_eq, map_size_empty_iff in Hsize. subst t.
      by rewrite lookup_empty.
    + rewrite lookup_union, lookup_fmap, Hbase.
      destruct (t !! k); simpl; [|by destruct (String.eqb k "PageSize"), (super_params !! k)].
      by destruct (String.eqb k "PageSize"), (super_params !! k).
  - by rewrite lookup_empty.
Qed.

(** X4.  [TwilioStream.parse_response] on a body that is a JSON object:
    when the data field holds a list it yields the items of the list, in
    their order, and ends; when the body has no such field it yields
    nothing and ends. *)
Theorem twilio_parse_response_records
    (keys_in_order : gmap string pyval → list string)
    (s : Twilio.stream) (response : requests.Response)
    (body : gmap string pyval) (items : list pyval) :
  requests.json response = Ok (PDict body) →
  default (PList []) (body !! Twilio.data_field s) = PList items →
  Twilio.parse_response keys_in_order s response = (items, None).
Proof.
  intros Hjson Hfield. unfold Twilio.parse_response.
  rewrite Hjson. simpl. by rewrite Hfield.
Qed.

Lemma twilio_parse_response_records_witness :
  Twilio.parse_response (fun _ => []) Twilio.Accounts twilio_accounts_page
    = ([sample_account "AC1"; sample_account "AC2"], None) ∧
  Twilio.parse_response (fun _ => []) Twilio.Alerts twilio_accounts_page
    = ([], None).
Proof.
  split.
  - apply (twilio_parse_response_records (fun _ => []) Twilio.Accounts
             twilio_accounts_page
             (<["accounts" := PList [sample_account "AC1"; sample_account "AC2"]]>
                {["next_page_uri" := PNone]})
             [sample_account "AC1"; sample_account "AC2"]);
      reflexivity.
  - apply (twilio_parse_response_records (fun _ => []) Twilio.Alerts
             twilio_accounts_page
             (<["accounts" := PList [sample_account "AC1"; sample_account "AC2"]]>
                {["next_page_uri" := PNone]})
             []);
      reflexivity.
Defined.

(** X5.  [TwilioStream.parse_response] never yields a record and then
    raises.  Either it ends normally, and then the body was a JSON
    object; or it raises before the first record: whatever
    [response.json()] raised, AttributeError for a body that is not an
    object, TypeError for a data field that cannot be iterated. *)
Theorem twilio_parse_response_outcome
    (keys_in_order : gmap string pyval → list string)
    (s : Twilio.stream) (response : requests.Response) :
  match Twilio.parse_response keys_in_order s response with
  | (items, Some e) =>
      items = [] ∧
      (requests.json response = Raise e ∨
       (e = AttributeError ∧
        ∃ v, requests.json response = Ok v ∧ get v (Twilio.data_field s) (PList [])
                                              = Raise AttributeError) ∨
       (e = TypeError ∧
        ∃ body field, requests.json response = Ok (PDict body) ∧
                      body !! Twilio.data_field s = Some field ∧
                      iter keys_in_order field = Raise TypeError))
  | (items, None) =>
      ∃ body, requests.json response = Ok (PDict body) ∧
              iter keys_in_order
                (default (PList []) (body !! Twilio.data_field s)) = Ok items
  end.
Proof.
  unfold Twilio.parse_response.
  destruct (requests.json response) as [v|e]; simpl; [|by split; [|left]].
  destruct v as [| | | | | |body]; simpl;
    try (split; [done|right; left; split; [done|by eexists]]).
  destruct (body !! Twilio.data_field s) as [field|] eqn:Hfield; simpl.
  - destruct field; simpl;
      try (by exists body; rewrite Hfield);
      (split; [done|]; right; right; split; [done|]);
      by eexists _, _.
  - exists body. by rewrite Hfield.
Qed.

(* ===================================================================== *)
(** ** Further properties: dependent streams *)
(* ===================================================================== *)

(** One parent record gives no slice, or its slice, and it gives a slice
    only if it carries its reference. *)
Lemma slices_for_at_most_one (s : Twilio.stream) (item : pyval) :
  (slices_for s item).1 = [] ∨
  ((slices_for s item).1 = [slice_of s item] ∧ has_reference s item = true).
Proof.
  destruct s as [name|name up data_field key validation|name up]; simpl;
    [by left| |].
  - unfold Twilio.nested_item.
    destruct item as [| | | | | |m]; simpl; try by left.
    destruct (m !! "subresource_uris") as [[| | | | | |uris]|]; simpl;
      try by left.
    destruct (uris !! key) as [reference|]; simpl; [|by left].
    destruct (truthy reference); [|by left].
    destruct (validate_truthy validation m (PBool true) eq_refl)
      as (v & -> & _).
    destruct (truthy v); [by right|by left].
  - unfold Twilio.dependent_item.
    destruct item as [| | | | | |m]; simpl; try by left.
    destruct (m !! "sid") as [sid|] eqn:Hsid; simpl; [|by left].
    destruct (m !! "account_sid") as [account_sid|] eqn:Hacc; simpl; [|by left].
    right. by split.
Qed.

Lemma for_each_fst_cons {A B} (x : A) (l : list A) (e : option exn)
    (body : A → emission B) :
  (for_each (x :: l, e) body).1 = (body x).1 ∨
  (for_each (x :: l, e) body).1 = ((body x).1 ++ (for_each (l, e) body).1)%list.
Proof.
  rewrite for_each_cons. unfold and_then.
  destruct ((body x).2); [by left|by right].
Qed.

Lemma for_each_sublist {A B} (f : A → B) (body : A → emission B)
    (l : list A) (e : option exn) :
  (∀ x, (body x).1 = [] ∨ (body x).1 = [f x]) →
  sublist (for_each (l, e) body).1 (map f l).
Proof.
  intros Hbody. induction l as [|x l IH]; [by constructor|].
  simpl map.
  destruct (for_each_fst_cons x l e body) as [-> | ->];
    destruct (Hbody x) as [-> | ->]; simpl.
  - apply sublist_nil_l.
  - apply sublist_skip, sublist_nil_l.
  - by apply sublist_cons.
  - by apply sublist_skip.
Qed.

Lemma elem_of_for_each {A B} (body : A → emission B) (l : list A)
    (e : option exn) (y : B) :
  y ∈ (for_each (l, e) body).1 → ∃ x, x ∈ l ∧ y ∈ (body x).1.
Proof.
  induction l as [|x l IH]; simpl; [by intros ?%elem_of_nil|].
  destruct (for_each_fst_cons x l e body) as [-> | ->].
  - intros Hy. exists x. split; [apply list_elem_of_here|done].
  - intros [Hy|Hy]%elem_of_app.
    + exists x. split; [apply list_elem_of_here|done].
    + destruct (IH Hy) as (x' & Hx' & Hy'). exists x'.
      split; [by apply list_elem_of_further|done].
Qed.

(** X6.  Whatever the parent emits, a dependent stream yields at most
    one slice per parent record and keeps the parent's order: its slices
    are a subsequence of the slices of the parent's records.  This holds
    also when a record is skipped or the generator stops on an
    exception. *)
Theorem stream_slices_subsequence
    (default_stream_slices : emission pyval)
    (read_records : Twilio.stream → pyval → emission pyval)
    (s parent : Twilio.stream) :
  parent_of s = Some parent →
  sublist (Twilio.stream_slices default_stream_slices read_records s).1
          (map (slice_of s)
               (Twilio.records default_stream_slices read_records parent).1) ∧
  (length (Twilio.stream_slices default_stream_slices read_records s).1
   ≤ length (Twilio.records default_stream_slices read_records parent).1)%nat.
Proof.
  intros Hparent.
  assert (sublist (Twilio.stream_slices default_stream_slices read_records s).1
            (map (slice_of s)
               (Twilio.records default_stream_slices read_records parent).1))
    as Hsub.
  { rewrite (stream_slices_by_record _ _ s parent Hparent).
    destruct (Twilio.records default_stream_slices read_records parent)
      as [items e].
    apply for_each_sublist. intros item.
    destruct (slices_for_at_most_one s item) as [?|[? _]]; auto. }
  split; [exact Hsub|].
  apply sublist_length in Hsub. by rewrite length_map in Hsub.
Qed.

Lemma stream_slices_subsequence_witness :
  (length (Twilio.stream_slices one_slice sample_read_records
             Twilio.MessageMedia).1 ≤ 4)%nat.
Proof.
  destruct (stream_slices_subsequence one_slice sample_read_records
              Twilio.MessageMedia Twilio.Messages eq_refl) as [_ Hlen].
  exact Hlen.
Defined.

(** X7.  The loop body of [TwilioNestedStream.stream_slices] raises
    exactly on a parent record that is not a mapping, or whose
    [subresource_uris] is there but is not a mapping, and what it raises
    is AttributeError.  On any other record it raises nothing: the
    validation loop and the two subscripts at the [yield] never fail. *)
Theorem nested_item_raises_only_attribute_error
    (subresource_uri_key : string)
    (media_exist_validation : list (string * pyval)) (item : pyval) :
  (Twilio.nested_item subresource_uri_key media_exist_validation item).2
  = if well_shaped item then None else Some AttributeError.
Proof.
  unfold Twilio.nested_item.
  destruct item as [| | | | | |m]; simpl; try done.
  destruct (m !! "subresource_uris") as [[| | | | | |uris]|]; simpl;
    try done.
  destruct (uris !! subresource_uri_key) as [reference|]; simpl; [|done].
  destruct (truthy reference); [|done].
  destruct (validate_truthy media_exist_validation m (PBool true) eq_refl)
    as (v & -> & _).
  by destruct (truthy v).
Qed.

(** X8.  [DependentPhoneNumbers.stream_slices] does not skip a parent
    record that lacks [sid] or [account_sid]: after the slices of the
    records before it, the generator stops with KeyError, and the
    records after it give no slice. *)
Theorem dependent_phone_numbers_stops_at_missing_key
    (default_stream_slices : emission pyval)
    (read_records : Twilio.stream → pyval → emission pyval)
    (name : string) (parent : Twilio.stream)
    (before after : list pyval) (m : gmap string pyval) (e : option exn) :
  let s := Twilio.DependentPhoneNumbersStream name parent in
  Twilio.records default_stream_slices read_records parent
    = ((before ++ PDict m :: after)%list, e) →
  Forall (fun item => has_reference s item = true) before →
  m !! "sid" = None ∨ m !! "account_sid" = None →
  Twilio.stream_slices default_stream_slices read_records s
    = (map (slice_of s) before, Some KeyError).
Proof.
  intros s Hrecords Hbefore Hmissing.
  rewrite (stream_slices_by_record _ _ s parent eq_refl), Hrecords.
  rewrite for_each_app, for_each_cons.
  rewrite (for_each_yield s before).
  - assert (slices_for s (PDict m) = throw KeyError) as ->.
    { simpl. unfold Twilio.dependent_item. simpl.
      destruct Hmissing as [-> | Hacc]; [done|].
      rewrite Hacc. by destruct (m !! "sid"). }
    unfold and_then. simpl. by rewrite app_nil_r.
  - eapply Forall_impl; [exact Hbefore|].
    intros item Href. by apply (dependent_item_accepted name parent).
Qed.

Lemma dependent_phone_numbers_stops_at_missing_key_witness :
  Twilio.stream_slices one_slice address_read_records
    Twilio.DependentPhoneNumbers
  = ([PDict (<["sid" := PStr "AD1"]> {["account_sid" := PStr "AC1"]})],
     Some KeyError).
Proof.
  apply (dependent_phone_numbers_stops_at_missing_key one_slice
           address_read_records "dependent_phone_numbers" Twilio.Addresses
           [sample_address (Some "AD1")] [sample_address (Some "AD3")]
           {["account_sid" := PStr "AC1"]} None).
  - reflexivity.
  - repeat constructor.
  - left. reflexivity.
Defined.

(** X9.  A failure while the parent is read is not swallowed: when the
    parent's records end in an exception, so does [stream_slices] of the
    dependent stream. *)
Theorem parent_failure_reaches_dependent_stream
    (default_stream_slices : emission pyval)
    (read_records : Twilio.stream → pyval → emission pyval)
    (s parent : Twilio.stream) (e : exn) :
  parent_of s = Some parent →
  (Twilio.records default_stream_slices read_records parent).2 = Some e →
  ∃ e' : exn,
    (Twilio.stream_slices default_stream_slices read_records s).2 = Some e'.
Proof.
  intros Hparent Hfail.
  rewrite (stream_slices_by_record _ _ s parent Hparent).
  destruct (Twilio.records default_stream_slices read_records parent)
    as [items e0].
  simpl in Hfail. subst e0. apply for_each_raises.
Qed.

Lemma parent_failure_reaches_dependent_stream_witness :
  ∃ e' : exn,
    (Twilio.stream_slices one_slice failing_read_records Twilio.Addresses).2
    = Some e'.
Proof.
  apply (parent_failure_reaches_dependent_stream one_slice failing_read_records
           Twilio.Addresses Twilio.Accounts JSONDecodeError).
  - reflexivity.
  - reflexivity.
Defined.

(** X10.  Every slice that a dependent stream yields is one that its
    [path] accepts: [path] of the stream on the slice raises nothing and
    returns a truthy value, the parent's reference for a
    TwilioNestedStream and the formatted path for
    DependentPhoneNumbers. *)
Theorem path_accepts_every_slice
    (default_stream_slices : emission pyval)
    (read_records : Twilio.stream → pyval → emission pyval)
    (str_of : pyval → string)
    (s parent : Twilio.stream) (stream_slice : pyval) :
  parent_of s = Some parent →
  stream_slice ∈ (Twilio.stream_slices default_stream_slices read_records s).1 →
  ∃ p : pyval, Twilio.path str_of s stream_slice = Ok p ∧ truthy p = true.
Proof.
  intros Hparent Hin.
  rewrite (stream_slices_by_record _ _ s parent Hparent) in Hin.
  destruct (Twilio.records default_stream_slices read_records parent)
    as [items e].
  apply elem_of_for_each in Hin as (item & _ & Hin).
  destruct (slices_for_at_most_one s item) as [Hnone|[Hone Href]];
    rewrite ?Hnone, ?Hone in Hin; [by apply elem_of_nil in Hin|].
  apply list_elem_of_singleton in Hin. subst stream_slice.
  destruct s as [name|name up data_field key validation|name up];
    [done| |]; destruct item as [| | | | | |m]; try done; simpl in *.
  - destruct (m !! "subresource_uris") as [[| | | | | |uris]|]; try done.
    destruct (uris !! key) as [reference|]; [|done].
    exists reference. unfold getitem. by rewrite lookup_singleton_eq.
  - eexists. split; [reflexivity|reflexivity].
Qed.

Lemma path_accepts_every_slice_witness :
  ∃ p : pyval,
    Twilio.path (fun v => text v) Twilio.MessageMedia
      (PDict {["subresource_uri" :=
                 PStr "/2010-04-01/Accounts/AC1/Messages/SM1/Media.json"]})
    = Ok p ∧ truthy p = true.
Proof.
  apply (path_accepts_every_slice one_slice sample_read_records
           (fun v => text v) Twilio.MessageMedia Twilio.Messages).
  - reflexivity.
  - vm_compute. apply list_elem_of_here.
Defined.

(* ===================================================================== *)
(** ** Further properties: cursor state *)
(* ===================================================================== *)

(** A comparison raises nothing but TypeError. *)
Lemma py_gt_raises_TypeError (a b : pyval) (e : exn) :
  py_gt a b = Raise e → e = TypeError.
Proof.
  revert a b. fix IH 1. intros a b.
  destruct a as [| | | | |l|]; destruct b as [| | | | |m|];
    try (clear IH; simpl; repeat case_match; congruence).
  simpl. revert m. induction l as [|x l IHl]; intros m; [discriminate|].
  destruct m as [|y m]; [discriminate|].
    destruct (py_eq x y); [apply IHl|apply IH].
Qed.

Lemma cursor_get (m : gmap string pyval) :
  get (PDict m) Woocommerce.cursor_field (PStr "") = Ok (cursor m).
Proof. reflexivity. Qed.

(** X11.  [IncrementalWoocommerceStream.get_updated_state] either raises
    TypeError or returns a mapping with one entry only, the cursor
    field, whose value is the cursor value of the state or that of the
    record.  It raises nothing else, and every other key of the current
    state is dropped. *)
Theorem get_updated_state_outcome (state record : gmap string pyval) :
  Woocommerce.get_updated_state state record = Raise TypeError ∨
  ∃ v : pyval,
    Woocommerce.get_updated_state state record
      = Ok {[Woocommerce.cursor_field := v]} ∧
    (v = cursor state ∨ v = cursor record).
Proof.
  unfold Woocommerce.get_updated_state. rewrite !cursor_get. simpl.
  unfold max.
  destruct (py_gt (cursor state) (cursor record)) as [greater|e] eqn:Hgt; simpl.
  - right. destruct greater; eexists; split; eauto.
  - left. by rewrite (py_gt_raises_TypeError _ _ _ Hgt).
Qed.

(** X12.  When exactly one of the two cursor values is a string (or is
    missing, which counts as the empty string) and the other is not,
    [get_updated_state] raises TypeError. *)
Theorem get_updated_state_mixed_types (state record : gmap string pyval) :
  is_str (cursor state) ≠ is_str (cursor record) →
  Woocommerce.get_updated_state state record = Raise TypeError.
Proof.
  unfold Woocommerce.get_updated_state. rewrite !cursor_get. simpl.
  unfold max.
  destruct (cursor state), (cursor record); simpl; done.
Qed.

Lemma get_updated_state_mixed_types_witness :
  Woocommerce.get_updated_state
    {["date_modified_gmt" := PInt 20210601]}
    {["id" := PInt 7]}
  = Raise TypeError.
Proof.
  apply (get_updated_state_mixed_types
           {["date_modified_gmt" := PInt 20210601]} {["id" := PInt 7]}).
  vm_compute. discriminate.
Defined.

Lemma string_compare_empty_r (s : string) : String.compare s "" ≠ Lt.
Proof. by destruct s. Qed.

(** A record without the cursor field keeps the cursor of the state. *)
Lemma get_updated_state_no_cursor (state record : gmap string pyval) :
  str_cursor state →
  record !! Woocommerce.cursor_field = None →
  Woocommerce.get_updated_state state record
  = Ok {[Woocommerce.cursor_field := cursor state]}.
Proof.
  unfold str_cursor. intros Hstate Hrecord.
  destruct (cursor state) as [| | | |b| |] eqn:Hb; try done.
  rewrite (get_updated_state_str state record "" b); [|by unfold cursor; rewrite Hrecord|done].
  destruct (String.compare b "") eqn:Hcmp; try done.
  - by apply String.compare_eq_iff in Hcmp as ->.
  - by apply string_compare_empty_r in Hcmp.
Qed.

(** X13.  A record that lacks the cursor field does not move the cursor:
    for a state whose cursor is a string or is missing,
    [get_updated_state] returns the mapping that holds the state's
    cursor value (the empty string if the state had none). *)
Theorem record_without_cursor_keeps_cursor (state record : gmap string pyval) :
  str_cursor state →
  record !! Woocommerce.cursor_field = None →
  Woocommerce.get_updated_state state record
  = Ok {[Woocommerce.cursor_field := cursor state]}.
Proof. apply get_updated_state_no_cursor. Qed.

Lemma record_without_cursor_keeps_cursor_witness :
  Woocommerce.get_updated_state
    {["date_modified_gmt" := PStr "2021-06-02T10:00:00"; "page" := PInt 3]}
    {["id" := PInt 2]}
  = Ok {["date_modified_gmt" := PStr "2021-06-02T10:00:00"]}.
Proof.
  etrans.
  - apply (record_without_cursor_keeps_cursor
             {["date_modified_gmt" := PStr "2021-06-02T10:00:00"; "page" := PInt 3]}
             {["id" := PInt 2]}); reflexivity.
  - reflexivity.
Defined.



(** X15.  Reading the same record again changes nothing: on string
    cursors, [get_updated_state] applied to its own result and the same
    record returns that result. *)
Theorem get_updated_state_idempotent (state record : gmap string pyval) :
  str_cursor state →
  str_cursor record →
  ∃ state' : gmap string pyval,
    Woocommerce.get_updated_state state record = Ok state' ∧
    Woocommerce.get_updated_state state' record = Ok state'.
Proof.
  unfold str_cursor. intros Hs Hr.
  destruct (cursor state) as [| | | |b| |] eqn:Hb; try done.
  destruct (cursor record) as [| | | |a| |] eqn:Ha; try done.
  eexists. split; [apply (get_updated_state_str state record a b Ha Hb)|].
  erewrite get_updated_state_str; [|exact Ha|apply cursor_singleton].
  destruct (String.compare b a) eqn:Hcmp; rewrite ?Hcmp;
    by rewrite ?string_compare_refl.
Qed.

Lemma get_updated_state_idempotent_witness :
  ∃ state' : gmap string pyval,
    Woocommerce.get_updated_state ∅
      {["date_modified_gmt" := PStr "2021-06-02T10:00:00"]} = Ok state' ∧
    Woocommerce.get_updated_state state'
      {["date_modified_gmt" := PStr "2021-06-02T10:00:00"]} = Ok state'.
Proof.
  apply (get_updated_state_idempotent ∅
           {["date_modified_gmt" := PStr "2021-06-02T10:00:00"]});
    reflexivity.
Defined.

Lemma is_str_text (v : pyval) : is_str v = true → v = PStr (text v).
Proof. by destruct v. Qed.

(** The state after a run of records holds the greatest cursor seen. *)
Lemma final_state_greatest (state : gmap string pyval)
    (records : list (gmap string pyval)) :
  str_cursor state →
  Forall str_cursor records →
  ∃ final : gmap string pyval,
    Woocommerce.final_state state records = Ok final ∧
    str_cursor final ∧
    str_le (text (cursor state)) (text (cursor final)) ∧
    Forall (fun record => str_le (text (cursor record)) (text (cursor final)))
           records ∧
    (text (cursor final) = text (cursor state) ∨
     Exists (fun record => text (cursor final) = text (cursor record)) records) ∧
    (records ≠ [] → final = {[Woocommerce.cursor_field := cursor final]}).
Proof.
  intros Hstate Hrecords. revert state Hstate.
  induction Hrecords as [|record records Hrecord _ IH]; intros state Hstate.
  - exists state. repeat split; auto using str_le_refl. done.
  - destruct (get_updated_state_max state record Hstate Hrecord)
      as (v & Hstep & Hone & Hle_state & Hle_record).
    destruct (IH {[Woocommerce.cursor_field := PStr v]})
      as (final & Hfinal & Hstr & Hle & Hall & Hmember & Hshape).
    { unfold str_cursor. by rewrite cursor_singleton. }
    rewrite cursor_singleton in Hle, Hmember. simpl in Hle, Hmember.
    exists final. simpl. rewrite Hstep. simpl.
    split; [exact Hfinal|]. split; [exact Hstr|].
    split; [by apply str_le_trans with v|].
    split; [constructor; [by apply str_le_trans with v|exact Hall]|].
    split.
    + destruct Hmember as [Hv|Hex].
      * destruct Hone as [Hs|Hr]; [left|right; constructor]; congruence.
      * right. by apply Exists_cons_tl.
    + intros _. destruct records as [|record' records'].
      * simpl in Hfinal. injection Hfinal as <-.
        by rewrite cursor_singleton.
      * by apply Hshape.
Qed.

(** X16.  After any run of records with string cursors, the state holds
    the greatest cursor value seen: a string that is above the initial
    cursor and above the cursor of every record read, and that is the
    cursor of the initial state or of one of the records. *)
Theorem final_state_holds_greatest_cursor
    (state : gmap string pyval) (records : list (gmap string pyval)) :
  str_cursor state →
  Forall str_cursor records →
  ∃ final : gmap string pyval,
    Woocommerce.final_state state records = Ok final ∧
    str_le (text (cursor state)) (text (cursor final)) ∧
    Forall (fun record => str_le (text (cursor record)) (text (cursor final)))
           records ∧
    (text (cursor final) = text (cursor state) ∨
     Exists (fun record => text (cursor final) = text (cursor record)) records).
Proof.
  intros Hstate Hrecords.
  destruct (final_state_greatest state records Hstate Hrecords)
    as (final & Hfinal & _ & Hle & Hall & Hmember & _).
  by exists final.
Qed.

Lemma final_state_holds_greatest_cursor_witness :
  Woocommerce.final_state ∅ sample_records
  = Ok {["date_modified_gmt" := PStr "2021-06-02T10:00:00"]} ∧
  ∃ final : gmap string pyval,
    Woocommerce.final_state ∅ sample_records = Ok final ∧
    Forall (fun record => str_le (text (cursor record)) (text (cursor final)))
           sample_records.
Proof.
  split; [vm_compute; reflexivity|].
  destruct (final_state_holds_greatest_cursor ∅ sample_records)
    as (final & Hfinal & _ & Hall & _).
  - reflexivity.
  - repeat constructor.
  - by exists final.
Defined.

(** X17.  The state after a run of records does not depend on the order
    in which the records were read: two runs over the same records, in
    any order, from the same state, end in the same state. *)
Theorem final_state_order_independent
    (state : gmap string pyval) (records records' : list (gmap string pyval)) :
  str_cursor state →
  Forall str_cursor records →
  Permutation records records' →
  ∃ final : gmap string pyval,
    Woocommerce.final_state state records = Ok final ∧
    Woocommerce.final_state state records' = Ok final.
Proof.
  intros Hstate Hrecords Hperm.
  assert (Forall str_cursor records') as Hrecords'
    by (by rewrite <- Hperm).
  destruct (final_state_greatest state records Hstate Hrecords)
    as (f & Hf & Hstr & Hle & Hall & Hmember & Hshape).
  destruct (final_state_greatest state records' Hstate Hrecords')
    as (f' & Hf' & Hstr' & Hle' & Hall' & Hmember' & Hshape').
  exists f. split; [exact Hf|]. rewrite Hf'. f_equal.
  destruct records as [|record records].
  { apply Permutation_nil_l in Hperm. subst records'.
    simpl in Hf, Hf'. congruence. }
  assert (records' ≠ []) as Hne'.
  { intros ->. by apply Permutation_nil_r in Hperm. }
  rewrite (Hshape' Hne'), Hshape by done.
  rewrite (is_str_text _ Hstr), (is_str_text _ Hstr'). do 2 f_equal.
  apply String.leb_antisym.
  - destruct Hmember' as [->|Hex]; [exact Hle|].
    apply Exists_exists in Hex as (r & Hin & ->).
    rewrite <- Hperm in Hin.
    by apply (proj1 (Forall_forall _ _) Hall).
  - destruct Hmember as [->|Hex]; [exact Hle'|].
    apply Exists_exists in Hex as (r & Hin & ->).
    rewrite Hperm in Hin.
    by apply (proj1 (Forall_forall _ _) Hall').
Qed.

Lemma final_state_order_independent_witness :
  ∃ final : gmap string pyval,
    Woocommerce.final_state ∅ sample_records = Ok final ∧
    Woocommerce.final_state ∅ (reverse sample_records) = Ok final.
Proof.
  apply (final_state_order_independent ∅ sample_records (reverse sample_records)).
  - reflexivity.
  - repeat constructor.
  - symmetry. apply reverse_Permutation.
Defined.

(* ===================================================================== *)
(** ** Further properties: requests and sources *)
(* ===================================================================== *)

(** X18.  With a non-empty token, [WoocommerceStream.request_params]
    sends the parameters of the token and nothing else but [per_page]:
    [per_page] is the token's if it has one and 10 otherwise, and
    [order] and [orderby] are sent only if the token carries them.
    Without a token, or with an empty one, the parameters are those of
    the first page. *)
Theorem woocommerce_request_params_lookup
    (next_page_token : option (gmap string string)) (k : string) :
  Woocommerce.request_params next_page_token !! k
  = match next_page_token with
    | Some t =>
        if Nat.eqb (size t) 0 then first_page_params !! k
        else match t !! k with
             | Some v => Some v
             | None => if String.eqb k "per_page" then Some "10" else None
             end
    | None => first_page_params !! k
    end.
Proof.
  unfold Woocommerce.request_params, Woocommerce.token_truthy.
  destruct next_page_token as [t|]; simpl; [|reflexivity].
  destruct (Nat.eqb (size t) 0); simpl; [reflexivity|].
  rewrite lookup_union. destruct (t !! k) as [v|]; simpl.
  - by destruct ({["per_page" := Woocommerce.per_page]} !! k).
  - destruct (String.eqb_spec k "per_page") as [->|Hne].
    + by rewrite lookup_singleton_eq.
    + by rewrite lookup_singleton_ne.
Qed.

(** X19.  [SourceTwilio.streams] needs both credentials: when
    [account_sid] or [auth_token] is missing from the configuration it
    raises KeyError; otherwise it returns the Basic authenticator made
    of the two values and 22 streams, among which every stream that
    depends on a parent finds its parent. *)
Theorem twilio_streams_needs_credentials (config : gmap string pyval) :
  match config !! "account_sid", config !! "auth_token" with
  | Some account_sid, Some auth_token =>
      ∃ l : list Twilio.stream,
        Twilio.streams config
          = Ok ({| Twilio.auth_method := "Basic";
                   Twilio.auth := (account_sid, auth_token) |}, l) ∧
        length l = 22 ∧
        ∀ s parent : Twilio.stream,
          s ∈ l → parent_of s = Some parent → parent ∈ l
  | _, _ => Twilio.streams config = Raise KeyError
  end.
Proof.
  unfold Twilio.streams. simpl.
  destruct (config !! "account_sid") as [account_sid|]; simpl; [|done].
  destruct (config !! "auth_token") as [auth_token|]; simpl; [|done].
  eexists. split; [reflexivity|]. split; [reflexivity|].
  intros s parent Hin Hparent.
  repeat (apply elem_of_cons in Hin as [->|Hin];
          [simpl in Hparent; try discriminate;
           injection Hparent as <-; set_solver|]).
  by apply elem_of_nil in Hin.
Qed.

(** X20.  A [next_page_uri] that is a non-empty string without a query
    string is not the end of pagination for [next_page_token]: it
    returns the empty mapping, not [None]; and [request_params] treats
    that empty token as it treats [None]. *)
Theorem twilio_marker_without_query
    (response : requests.Response) (body : gmap string pyval)
    (uri : string) (parts : urllib.SplitResult)
    (super_params : gmap string pyval) :
  requests.json response = Ok (PDict body) →
  body !! "next_page_uri" = Some (PStr uri) →
  uri ≠ "" →
  urllib.urlsplit uri = Ok parts →
  urllib.query parts = "" →
  Twilio.next_page_token response = Ok (Some ∅) ∧
  Twilio.request_params super_params (Some ∅)
  = Twilio.request_params super_params None.
Proof.
  intros Hjson Huri Hne Hsplit Hquery. split; [|reflexivity].
  unfold Twilio.next_page_token. rewrite Hjson. simpl. rewrite Huri. simpl.
  destruct uri as [|c uri']; [done|].
  simpl. rewrite Hsplit. simpl. by rewrite Hquery.
Qed.

Lemma twilio_marker_without_query_witness :
  Twilio.next_page_token
    {| requests.json :=
         Ok (PDict {["next_page_uri" := PStr "/2010-04-01/Accounts.json"]});
       requests.link_header := None |}
  = Ok (Some ∅).
Proof.
  destruct (twilio_marker_without_query
              {| requests.json :=
                   Ok (PDict {["next_page_uri" :=
                                 PStr "/2010-04-01/Accounts.json"]});
                 requests.link_header := None |}
              {["next_page_uri" := PStr "/2010-04-01/Accounts.json"]}
              "/2010-04-01/Accounts.json"
              {| urllib.scheme := ""; urllib.netloc := "";
                 urllib.path := "/2010-04-01/Accounts.json";
                 urllib.query := ""; urllib.fragment := "" |}
              ∅) as [Htoken _].
  - reflexivity.
  - reflexivity.
  - discriminate.
  - reflexivity.
  - reflexivity.
  - exact Htoken.
Defined.
